(** * The serializers of the recipe application (backend/api/serializers.py)

    A shallow embedding of the serializer classes and of the parts of the
    framework they run on, followed by the properties the specification
    states about them.

    Conventions.
    - Python [str] values are [string]s read as ASCII text; [int] is [Z].
    - An exception is a value of [exn]; code that may raise returns an
      [outcome].
    - Database access is written in the monad [M]: a state monad over the
      tables that also records every committed state.  There is no
      enclosing transaction, so a raise keeps the writes made before it. *)

From Stdlib Require Import ZArith List String Ascii Bool Lia Permutation.
From Stdlib Require Import DecimalString DecimalZ DecimalPos DecimalFacts.
Import ListNotations.

Local Set Warnings "-register-all".
Local Open Scope string_scope.
Local Open Scope list_scope.
Local Open Scope Z_scope.

(* ================================================================== *)
(** * Python built-ins used by the serializers *)
(* ================================================================== *)

Module Py.

(** [str.isspace] on one ASCII character: TAB..CR, FS..US and space. *)
Definition isspace (c : ascii) : bool :=
  let n := nat_of_ascii c in
  ((9 <=? n) && (n <=? 13) || (28 <=? n) && (n <=? 32))%nat.

Fixpoint lstrip (s : string) : string :=
  match s with
  | String c r => if isspace c then lstrip r else s
  | EmptyString => EmptyString
  end.

Fixpoint rev_append (s acc : string) : string :=
  match s with
  | String c r => rev_append r (String c acc)
  | EmptyString => acc
  end.

Definition reversed (s : string) : string := rev_append s EmptyString.

Definition rstrip (s : string) : string := reversed (lstrip (reversed s)).

(** [s.strip()] *)
Definition strip (s : string) : string := lstrip (rstrip s).

(** [s.split(sep)] for a one-character separator.  The result is never
    empty: a string without the separator is its own single segment. *)
Fixpoint split (sep : ascii) (s : string) : list string :=
  match s with
  | EmptyString => [EmptyString]
  | String c r =>
      if Ascii.eqb c sep then EmptyString :: split sep r
      else match split sep r with
           | seg :: segs => String c seg :: segs
           | [] => [String c EmptyString]
           end
  end.

(** [l[-1]] on a non-empty list ([d] stands for the IndexError case). *)
Definition last_item {A} (l : list A) (d : A) : A := List.last l d.

(** [l[-n:]] *)
Definition last_slice {A} (n : nat) (l : list A) : list A :=
  skipn (List.length l - n) l.

(** [sep.join(l)] *)
Definition join (sep : string) (l : list string) : string :=
  String.concat sep l.

(** [str(n)] for an [int]. *)
Definition str_of_int (n : Z) : string :=
  NilZero.string_of_int (Z.to_int n).

Definition digit_of (c : ascii) : option Z :=
  let n := nat_of_ascii c in
  if ((48 <=? n) && (n <=? 57))%nat then Some (Z.of_nat (n - 48)) else None.

(** Digits of a decimal literal, single underscores allowed between
    digits.  [prev] tells whether the previous character was a digit. *)
Fixpoint digits (acc : Z) (prev : bool) (s : string) : option Z :=
  match s with
  | EmptyString => if prev then Some acc else None
  | String c r =>
      match digit_of c with
      | Some d => digits (10 * acc + d) true r
      | None =>
          if Ascii.eqb c "_"%char then (if prev then digits acc false r else None)
          else None
      end
  end.

(** The whitespace [int] skips around a literal: TAB..CR and space.  It
    is narrower than [str.isspace]: FS..US are no whitespace for [int]. *)
Definition int_space (c : ascii) : bool :=
  let n := nat_of_ascii c in
  ((9 <=? n) && (n <=? 13) || (n =? 32))%nat.

Fixpoint drop_spaces (s : string) : string :=
  match s with
  | String c r => if int_space c then drop_spaces r else s
  | EmptyString => EmptyString
  end.

(** The literal without the whitespace before and after it. *)
Definition int_literal (s : string) : string :=
  drop_spaces (reversed (drop_spaces (reversed s))).

Fixpoint count_digits (s : string) : nat :=
  match s with
  | EmptyString => 0
  | String c r =>
      match digit_of c with
      | Some _ => S (count_digits r)
      | None => count_digits r
      end
  end.

(** [sys.int_info.default_max_str_digits]: a literal of more digits is
    refused. *)
Definition max_str_digits : nat := 4300.

(** [int(s)] for a [str] in base ten: surrounding whitespace, an optional
    sign, digits.  [None] stands for [ValueError]. *)
Definition int (s : string) : option Z :=
  let literal := int_literal s in
  if (max_str_digits <? count_digits literal)%nat then None
  else
    match literal with
    | String "-"%char r => option_map Z.opp (digits 0 false r)
    | String "+"%char r => digits 0 false r
    | r => digits 0 false r
    end.

(** Truth value of a [str] and of a [list]. *)
Definition truthy_str (s : string) : bool :=
  match s with EmptyString => false | _ => true end.

Definition truthy_list {A} (l : list A) : bool :=
  match l with [] => false | _ => true end.

End Py.

(* ================================================================== *)
(** * Exceptions *)
(* ================================================================== *)

(** The [detail] of a framework [ValidationError]: the messages raised by a
    field or a hook, the per-field errors a serializer collects, or the
    per-item errors of a [many=True] serializer. *)
Inductive detail : Type :=
| Messages (msgs : list string)
| FieldErrors (errs : list (string * detail))
| ItemErrors (items : list detail).

Inductive exn : Type :=
| ValidationError (d : detail)
| ValueError
| TypeError
| KeyError (key : string)
| AttributeError
| AssertionError
| IntegrityError
| DoesNotExist
| DatabaseError
| BinasciiError
| UnidentifiedImageError.

Inductive outcome (A : Type) : Type :=
| Ok (a : A)
| Raise (e : exn).

Arguments Ok {A} a.
Arguments Raise {A} e.

Definition is_validation_error {A} (o : outcome A) : bool :=
  match o with Raise (ValidationError _) => true | _ => false end.

Definition is_ok {A} (o : outcome A) : bool :=
  match o with Ok _ => true | Raise _ => false end.

(* ================================================================== *)
(** * Request payloads *)
(* ================================================================== *)

(** An uploaded or synthesized file: [ContentFile(content, name=...)]. *)
Record ContentFile : Type := {
  file_content : list Byte.byte;
  file_name : string
}.

(** A value of a parsed request body. *)
Inductive jval : Type :=
| JNull
| JBool (b : bool)
| JNum (n : Z)
| JStr (s : string)
| JList (l : list jval)
| JDict (d : list (string * jval))
| JFile (f : ContentFile).

(** A Python [dict] with string keys, in insertion order, keys unique. *)
Definition dict (V : Type) : Type := list (string * V).

Fixpoint dict_get {V} (k : string) (d : dict V) : option V :=
  match d with
  | [] => None
  | (k', v) :: r => if String.eqb k k' then Some v else dict_get k r
  end.

(** [d[k] = v] *)
Fixpoint dict_set {V} (k : string) (v : V) (d : dict V) : dict V :=
  match d with
  | [] => [(k, v)]
  | (k', v') :: r =>
      if String.eqb k k' then (k, v) :: r else (k', v') :: dict_set k v r
  end.

(** Truth value of [value] in [if value:] / [if not value:].  [None] is
    Python's [None]: both a missing key read with [.get] and a null. *)
Definition truthy (v : option jval) : bool :=
  match v with
  | None | Some JNull => false
  | Some (JBool b) => b
  | Some (JNum n) => negb (n =? 0)
  | Some (JStr s) => Py.truthy_str s
  | Some (JList l) => Py.truthy_list l
  | Some (JDict d) => Py.truthy_list d
  | Some (JFile f) => Py.truthy_str (file_name f)
  end.

(** [type(value).__name__], as the framework's messages show it. *)
Definition type_name (v : jval) : string :=
  match v with
  | JNull => "NoneType"
  | JBool _ => "bool"
  | JNum _ => "int"
  | JStr _ => "str"
  | JList _ => "list"
  | JDict _ => "dict"
  | JFile _ => "ContentFile"
  end.

(** A text between double quotes. *)
Definition quoted (s : string) : string :=
  String (ascii_of_nat 34) (s ++ String (ascii_of_nat 34) "").

(* ================================================================== *)
(** * Persisted records *)
(* ================================================================== *)

(** Modelled from the spec: recipes/models.py is not among the source
    files.  The records below carry the fields that section 3 of the
    specification lists and that the serializers read or write; relations
    are tables of rows keyed by integer ids. *)

Record User : Type := {
  user_id : Z;
  user_email : string;
  user_username : string;
  user_first_name : string;
  user_last_name : string;
  user_password : string
}.

(** An edge of the "following" relation: [follow_user] follows
    [follow_author]. *)
Record Follow : Type := {
  follow_user : Z;
  follow_author : Z
}.

(** An edge of the "favorite" or the "shoppingcarts" relation. *)
Record UserRecipe : Type := {
  edge_user : Z;
  edge_recipe : Z
}.

Record Tags : Type := {
  tag_id : Z;
  tag_name : string;
  tag_color : string;
  tag_slug : string
}.

Record Ingredients : Type := {
  ingredient_id : Z;
  ingredient_name : string;
  ingredient_measurement_unit : string
}.

Record Recipes : Type := {
  recipe_id : Z;
  recipe_author : Z;
  recipe_name : string;
  recipe_image : string;          (* path of the stored file *)
  recipe_text : string;
  recipe_cooking_time : Z
}.

(** A recipe-ingredient line: the row of the join table. *)
Record RecipesIngridients : Type := {
  line_id : Z;
  line_recipe : Z;
  line_ingredient : Z;
  line_amount : Z
}.

(** A row of the recipe/tag many-to-many table. *)
Record RecipeTag : Type := {
  rt_recipe : Z;
  rt_tag : Z
}.

Record DB : Type := {
  tbl_users : list User;
  tbl_follows : list Follow;
  tbl_favorites : list UserRecipe;
  tbl_shoppingcarts : list UserRecipe;
  tbl_tags : list Tags;
  tbl_ingredients : list Ingredients;
  tbl_recipes : list Recipes;
  tbl_recipe_tags : list RecipeTag;
  tbl_lines : list RecipesIngridients;
  (* the next value of each primary-key sequence *)
  seq_user : Z;
  seq_recipe : Z;
  seq_line : Z
}.

Definition set_users (f : list User -> list User) (db : DB) : DB :=
  {| tbl_users := f (tbl_users db); tbl_follows := tbl_follows db;
     tbl_favorites := tbl_favorites db;
     tbl_shoppingcarts := tbl_shoppingcarts db; tbl_tags := tbl_tags db;
     tbl_ingredients := tbl_ingredients db; tbl_recipes := tbl_recipes db;
     tbl_recipe_tags := tbl_recipe_tags db; tbl_lines := tbl_lines db;
     seq_user := seq_user db; seq_recipe := seq_recipe db;
     seq_line := seq_line db |}.

Definition set_seq_user (n : Z) (db : DB) : DB :=
  {| tbl_users := tbl_users db; tbl_follows := tbl_follows db;
     tbl_favorites := tbl_favorites db;
     tbl_shoppingcarts := tbl_shoppingcarts db; tbl_tags := tbl_tags db;
     tbl_ingredients := tbl_ingredients db; tbl_recipes := tbl_recipes db;
     tbl_recipe_tags := tbl_recipe_tags db; tbl_lines := tbl_lines db;
     seq_user := n; seq_recipe := seq_recipe db; seq_line := seq_line db |}.

Definition set_recipes (f : list Recipes -> list Recipes) (db : DB) : DB :=
  {| tbl_users := tbl_users db; tbl_follows := tbl_follows db;
     tbl_favorites := tbl_favorites db;
     tbl_shoppingcarts := tbl_shoppingcarts db; tbl_tags := tbl_tags db;
     tbl_ingredients := tbl_ingredients db; tbl_recipes := f (tbl_recipes db);
     tbl_recipe_tags := tbl_recipe_tags db; tbl_lines := tbl_lines db;
     seq_user := seq_user db; seq_recipe := seq_recipe db;
     seq_line := seq_line db |}.

Definition set_seq_recipe (n : Z) (db : DB) : DB :=
  {| tbl_users := tbl_users db; tbl_follows := tbl_follows db;
     tbl_favorites := tbl_favorites db;
     tbl_shoppingcarts := tbl_shoppingcarts db; tbl_tags := tbl_tags db;
     tbl_ingredients := tbl_ingredients db; tbl_recipes := tbl_recipes db;
     tbl_recipe_tags := tbl_recipe_tags db; tbl_lines := tbl_lines db;
     seq_user := seq_user db; seq_recipe := n; seq_line := seq_line db |}.

Definition set_recipe_tags (f : list RecipeTag -> list RecipeTag) (db : DB)
  : DB :=
  {| tbl_users := tbl_users db; tbl_follows := tbl_follows db;
     tbl_favorites := tbl_favorites db;
     tbl_shoppingcarts := tbl_shoppingcarts db; tbl_tags := tbl_tags db;
     tbl_ingredients := tbl_ingredients db; tbl_recipes := tbl_recipes db;
     tbl_recipe_tags := f (tbl_recipe_tags db); tbl_lines := tbl_lines db;
     seq_user := seq_user db; seq_recipe := seq_recipe db;
     seq_line := seq_line db |}.

Definition set_lines
  (f : list RecipesIngridients -> list RecipesIngridients) (db : DB) : DB :=
  {| tbl_users := tbl_users db; tbl_follows := tbl_follows db;
     tbl_favorites := tbl_favorites db;
     tbl_shoppingcarts := tbl_shoppingcarts db; tbl_tags := tbl_tags db;
     tbl_ingredients := tbl_ingredients db; tbl_recipes := tbl_recipes db;
     tbl_recipe_tags := tbl_recipe_tags db; tbl_lines := f (tbl_lines db);
     seq_user := seq_user db; seq_recipe := seq_recipe db;
     seq_line := seq_line db |}.

Definition set_seq_line (n : Z) (db : DB) : DB :=
  {| tbl_users := tbl_users db; tbl_follows := tbl_follows db;
     tbl_favorites := tbl_favorites db;
     tbl_shoppingcarts := tbl_shoppingcarts db; tbl_tags := tbl_tags db;
     tbl_ingredients := tbl_ingredients db; tbl_recipes := tbl_recipes db;
     tbl_recipe_tags := tbl_recipe_tags db; tbl_lines := tbl_lines db;
     seq_user := seq_user db; seq_recipe := seq_recipe db; seq_line := n |}.

(* ================================================================== *)
(** * The database monad *)
(* ================================================================== *)

(** [now] is the current content of the tables, [committed] every state a
    write has produced so far, oldest first.  Each write commits on its
    own, so [committed] is what another reader could have observed. *)
Record Store : Type := {
  now : DB;
  committed : list DB
}.

Definition M (A : Type) : Type := Store -> outcome A * Store.

Definition ret {A} (a : A) : M A := fun st => (Ok a, st).

Definition bind {A B} (c : M A) (k : A -> M B) : M B :=
  fun st =>
    match c st with
    | (Ok a, st') => k a st'
    | (Raise e, st') => (Raise e, st')
    end.

Definition raise {A} (e : exn) : M A := fun st => (Raise e, st).

(** A read: [Model.objects.filter(...)], [.exists()], [.first()], ... *)
Definition query {A} (f : DB -> A) : M A := fun st => (Ok (f (now st)), st).

(** A write: one INSERT, UPDATE or DELETE, committed at once. *)
Definition write (f : DB -> DB) : M unit :=
  fun st =>
    let db' := f (now st) in
    (Ok tt, {| now := db'; committed := committed st ++ [db'] |}).

Notation "x <- c ;; k" := (bind c (fun x => k))
  (at level 61, c at next level, right associativity).
Notation "c ;;; k" := (bind c (fun _ => k))
  (at level 61, right associativity).

(** [for x in l: body(x)] *)
Fixpoint for_each {A} (l : list A) (body : A -> M unit) : M unit :=
  match l with
  | [] => ret tt
  | x :: r => body x ;;; for_each r body
  end.

Definition start (db : DB) : Store := {| now := db; committed := [] |}.

(** Lift an [outcome] computed without the database. *)
Definition lift {A} (o : outcome A) : M A :=
  match o with Ok a => ret a | Raise e => raise e end.

(* ================================================================== *)
(** * The request context and the external collaborators *)
(* ================================================================== *)

Inductive RequestUser : Type :=
| AnonymousUser
| Authenticated (u : User).

Definition is_authenticated (u : RequestUser) : bool :=
  match u with Authenticated _ => true | AnonymousUser => false end.

(** [self.context['request']]: the current user and the query string as
    (key, value) pairs in the order they were sent. *)
Record Request : Type := {
  request_user : RequestUser;
  query_params : list (string * string)
}.

(** [query_params.get(key)]: the last value sent for [key], if any. *)
Fixpoint QueryDict_get (key : string) (qp : list (string * string))
  : option string :=
  match qp with
  | [] => None
  | (k, v) :: r =>
      match QueryDict_get key r with
      | Some v' => Some v'
      | None => if String.eqb key k then Some v else None
      end
  end.

(** The libraries the serializers call but do not define: password hashing
    and policy, the e-mail format check, base64, image sniffing, file
    storage. *)
Class Collaborators : Type := {
  (** [make_password(raw)], called by [user.set_password(raw)] *)
  make_password : string -> string;
  (** [check_password(raw, encoded)], called by [user.check_password(raw)] *)
  check_password : string -> string -> bool;
  (** [validate_password(password, user)]: the messages of the violated
      policy rules; it raises when the list is not empty *)
  validate_password : string -> User -> list string;
  (** the format check of [EmailField] *)
  EmailValidator : string -> bool;
  (** [base64.b64decode(s)]; [None] is [binascii.Error] *)
  b64decode : string -> option (list Byte.byte);
  (** [Image.open(io.BytesIO(b)).format]; [None] is the error raised for
      bytes in which no image format is recognised *)
  Image_open_format : list Byte.byte -> option string;
  (** the path under which the storage saves a file *)
  storage_save : ContentFile -> string;
  (** the URL the storage gives for a path: [file.url] *)
  storage_url : string -> string;
  (** [request.build_absolute_uri(url)]: the URL with the scheme and the
      host the request came to *)
  build_absolute_uri : string -> string
}.

(* ================================================================== *)
(** * Framework fields *)
(* ================================================================== *)

(** A validator: the check and the message raised when it fails. *)
Definition validator : Type := (string -> bool) * string.

(** [Field.run_validators]: every validator runs, the messages add up. *)
Definition run_validators (vs : list validator) (value : string)
  : outcome string :=
  match
    flat_map (fun v : validator => if fst v value then [] else [snd v]) vs
  with
  | [] => Ok value
  | msgs => Raise (ValidationError (Messages msgs))
  end.

Definition MaxLengthValidator (max_length : nat) : validator :=
  (fun v => (String.length v <=? max_length)%nat,
   ("Ensure this field has no more than "
      ++ Py.str_of_int (Z.of_nat max_length) ++ " characters.")%string).

Fixpoint has_null_char (s : string) : bool :=
  match s with
  | EmptyString => false
  | String c r => Ascii.eqb c zero || has_null_char r
  end.

Definition ProhibitNullCharactersValidator : validator :=
  (fun v => negb (has_null_char v), "Null characters are not allowed.").

Definition fail {A} (msg : string) : outcome A :=
  Raise (ValidationError (Messages [msg])).

(** [CharField(required=True, max_length=...)] with the framework's
    defaults [allow_null=False], [allow_blank=False],
    [trim_whitespace=True]; [extra] are the validators a subclass adds.
    The argument is the value found under the field's key, [None] when the
    key is missing. *)
Definition CharField (max_length : option nat) (extra : list validator)
  (data : option jval) : outcome string :=
  let validators :=
    match max_length with
    | Some n => [MaxLengthValidator n]
    | None => []
    end ++ [ProhibitNullCharactersValidator] ++ extra in
  match data with
  | None => fail "This field is required."
  | Some JNull => fail "This field may not be null."
  | Some (JStr s) =>
      if Py.truthy_str (Py.strip s)
      then run_validators validators (Py.strip s)
      else fail "This field may not be blank."
  | Some (JNum n) => run_validators validators (Py.str_of_int n)
  | Some _ => fail "Not a valid string."
  end.

Definition EmailField `{Collaborators} (max_length : option nat)
  (data : option jval) : outcome string :=
  CharField max_length [(EmailValidator, "Enter a valid email address.")] data.

(** [re.compile(r'\.0*\s*$')] of [IntegerField]: does [s] consist of
    zeros followed by whitespace only? *)
Fixpoint only_spaces (s : string) : bool :=
  match s with
  | EmptyString => true
  | String c r => Py.isspace c && only_spaces r
  end.

Fixpoint zeros_then_spaces (s : string) : bool :=
  match s with
  | EmptyString => true
  | String c r =>
      if Ascii.eqb c "0"%char then zeros_then_spaces r else only_spaces s
  end.

(** [re_decimal.sub('', s)]: cut at the first dot that is followed by
    zeros and whitespace up to the end. *)
Fixpoint re_decimal_sub (s : string) : string :=
  match s with
  | EmptyString => EmptyString
  | String c r =>
      if Ascii.eqb c "."%char && zeros_then_spaces r then EmptyString
      else String c (re_decimal_sub r)
  end.

(** [IntegerField()] (required, no bounds). *)
Definition IntegerField (data : option jval) : outcome Z :=
  match data with
  | None => fail "This field is required."
  | Some JNull => fail "This field may not be null."
  | Some (JNum n) => Ok n
  | Some (JStr s) =>
      if (1000 <? String.length s)%nat then fail "String value too large."
      else match Py.int (re_decimal_sub s) with
           | Some n => Ok n
           | None => fail "A valid integer is required."
           end
  | Some _ => fail "A valid integer is required."
  end.

(** [PrimaryKeyRelatedField(queryset=Model.objects.all())] over a table
    [rows] with primary key [pk]: the row itself is the validated value.
    The lookup is that of a key the database can compare with its own, a
    64-bit integer; what a larger key does depends on the storage back
    end, and the properties below that turn on it ask for keys in that
    range. *)
Definition PrimaryKeyRelatedField {R} (pk : R -> Z) (rows : list R)
  (data : option jval) : outcome R :=
  let get (n : Z) (pk_value : string) : outcome R :=
    match find (fun r => pk r =? n) rows with
    | Some r => Ok r
    | None =>
        fail ("Invalid pk " ++ quoted pk_value
                ++ " - object does not exist.")%string
    end in
  match data with
  | None => fail "This field is required."
  | Some JNull => fail "This field may not be null."
  | Some (JNum n) => get n (Py.str_of_int n)
  | Some (JStr s) =>
      (* a relational field reads the empty string as a null *)
      if negb (Py.truthy_str s) then fail "This field may not be null."
      else
        match Py.int s with
        | Some n => get n s
        | None => fail "Incorrect type. Expected pk value, received str."
        end
  | Some v =>
      fail ("Incorrect type. Expected pk value, received "
              ++ type_name v ++ ".")%string
  end.

(** One field of the loop in [Serializer.to_internal_value]: the field's
    own [run_validation], then the serializer's [validate_<name>] hook when
    the field accepted the value. *)
Definition then_hook {A} (field : outcome A) (hook : A -> outcome A)
  : outcome A :=
  match field with
  | Ok v => hook v
  | Raise e => Raise e
  end.

(** The state of that loop: the values bound so far, the errors collected
    so far, or an exception that is no validation error and ends the
    loop. *)
Inductive binding (A : Type) : Type :=
| Bound (a : A)
| Errors (errs : list (string * detail))
| Aborted (e : exn).

Arguments Bound {A} a.
Arguments Errors {A} errs.
Arguments Aborted {A} e.

Definition bind_field {A B} (acc : binding (A -> B)) (name : string)
  (o : outcome A) : binding B :=
  match acc, o with
  | Aborted e, _ => Aborted e
  | Bound f, Ok a => Bound (f a)
  | Bound _, Raise (ValidationError d) => Errors [(name, d)]
  | Errors errs, Ok _ => Errors errs
  | Errors errs, Raise (ValidationError d) => Errors (errs ++ [(name, d)])
  | _, Raise e => Aborted e
  end.

(** [if errors: raise ValidationError(errors)] / [return ret] *)
Definition bound {A} (b : binding A) : outcome A :=
  match b with
  | Bound a => Ok a
  | Errors errs => Raise (ValidationError (FieldErrors errs))
  | Aborted e => Raise e
  end.

(** [as_serializer_error]: an error raised by [validate] is reported under
    the key "non_field_errors" unless it already names fields. *)
Definition as_serializer_error (d : detail) : detail :=
  match d with
  | FieldErrors errs => FieldErrors errs
  | other => FieldErrors [("non_field_errors", other)]
  end.

(** [Serializer.run_validation]: bind the fields, then the cross-field
    [validate]. *)
Definition run_validation {A} (fields : outcome A)
  (validate : A -> outcome A) : outcome A :=
  match fields with
  | Raise e => Raise e
  | Ok value =>
      match validate value with
      | Raise (ValidationError d) =>
          Raise (ValidationError (as_serializer_error d))
      | other => other
      end
  end.

Definition bind_pair {A B} (acc : binding (A -> B)) (f : string * outcome A)
  : binding B :=
  bind_field acc (fst f) (snd f).

Infix "<&>" := bind_pair (at level 50, left associativity).

(** [ListSerializer.to_internal_value] ([many=True], [allow_empty=True]):
    every item goes through the child; the errors are reported per item,
    with an empty entry for an item that passed. *)
Fixpoint validate_items {A} (child : dict jval -> outcome A)
  (items : list jval) : binding (list A) * list detail :=
  match items with
  | [] => (Bound [], [])
  | item :: rest =>
      let o :=
        match item with
        | JDict d => child d
        | JNull => fail "This field may not be null."
        | other =>
            Raise (ValidationError (FieldErrors
              [("non_field_errors",
                Messages [("Invalid data. Expected a dictionary, but got "
                             ++ type_name other ++ ".")%string])]))
        end in
      let '(acc, errs) := validate_items child rest in
      match o, acc with
      | Raise (ValidationError d), Aborted e => (Aborted e, d :: errs)
      | Raise (ValidationError d), _ => (Errors [], d :: errs)
      | Raise e, _ => (Aborted e, errs)
      | Ok a, Bound l => (Bound (a :: l), FieldErrors [] :: errs)
      | Ok _, other => (other, FieldErrors [] :: errs)
      end
  end.

Definition ListSerializer {A} (child : dict jval -> outcome A)
  (data : option jval) : outcome (list A) :=
  match data with
  | None => fail "This field is required."
  | Some JNull => fail "This field may not be null."
  | Some (JList items) =>
      match validate_items child items with
      | (Bound l, _) => Ok l
      | (Errors _, errs) => Raise (ValidationError (ItemErrors errs))
      | (Aborted e, _) => Raise e
      end
  | Some v =>
      Raise (ValidationError (FieldErrors
        [("non_field_errors",
          Messages [("Expected a list of items but got type "
                       ++ quoted (type_name v) ++ ".")%string])]))
  end.

(** A field of a serializer that may run with [partial=True]: a missing
    key is skipped then ([None]), and bound as usual otherwise. *)
Definition skippable {A} (partial : bool) (field : option jval -> outcome A)
  (data : option jval) : outcome (option A) :=
  match data, partial with
  | None, true => Ok None
  | _, _ =>
      match field data with
      | Ok a => Ok (Some a)
      | Raise e => Raise e
      end
  end.

(* ================================================================== *)
(** * The serializers *)
(* ================================================================== *)

(** The validated data of [UserSerializer]. *)
Record UserData : Type := {
  vd_email : string;
  vd_username : string;
  vd_first_name : string;
  vd_last_name : string;
  vd_password : string
}.

(** What a serializer shows of a user ([password] is write-only). *)
Record UserRep : Type := {
  rep_user_id : Z;
  rep_email : string;
  rep_username : string;
  rep_first_name : string;
  rep_last_name : string;
  rep_is_subscribed : bool
}.

(** [RecipesSmallSerializer]: id, name, image, cooking_time. *)
Record RecipeSmallRep : Type := {
  small_id : Z;
  small_name : string;
  small_image : option string;
  small_cooking_time : Z
}.

(** The validated data of [SetPasswordSerializer]. *)
Record PasswordData : Type := {
  new_password : string;
  current_password : string
}.

(** One validated item of [IngredientsSerializer]: the referenced row and
    the amount. *)
Record IngredientEntry : Type := {
  entry_id : Ingredients;
  entry_amount : Z
}.

(** [TagsSerializer]: id, name, color, slug. *)
Record TagRep : Type := {
  tr_id : Z;
  tr_name : string;
  tr_color : string;
  tr_slug : string
}.

(** [IngredientsRecipeSerializer]: id (a [CharField] on [ingredient_id]),
    amount, name, measurement_unit. *)
Record LineRep : Type := {
  lr_id : string;
  lr_amount : Z;
  lr_name : string;
  lr_measurement_unit : string
}.

(** The value bound for [author]: the current user (the field's default)
    or, when the payload carries an "author" object, its validated data. *)
Inductive AuthorValue : Type :=
| CurrentUser (u : RequestUser)
| AuthorData (d : UserData).

(** The validated data of [RecipesSerializer]; [None] is a key that is not
    in the dictionary. *)
Record RecipeData : Type := {
  vd_tags : option (list Tags);
  vd_author : option AuthorValue;
  vd_ingredients : option (list IngredientEntry);
  vd_name : option string;
  vd_image : option ContentFile;
  vd_text : option string;
  vd_cooking_time : option Z
}.

(** What [RecipesSerializer.to_representation] returns. *)
Record RecipeRep : Type := {
  rep_id : Z;
  rep_tags : list TagRep;
  rep_author : UserRep;
  rep_ingredients : list LineRep;
  rep_is_favorited : bool;
  rep_is_in_shopping_cart : bool;
  rep_name : string;
  rep_image : string;
  rep_text : string;
  rep_cooking_time : Z
}.

(** The fields of [RecipesSerializer] that the framework builds from the
    model declarations (tags, name, text, cooking_time), and its
    [ImageField], whose check opens the file with the imaging library. *)
Class RecipeFields : Type := {
  tags_field : DB -> option jval -> outcome (list Tags);
  name_field : option jval -> outcome string;
  text_field : option jval -> outcome string;
  cooking_time_field : option jval -> outcome Z;
  ImageField : option jval -> outcome ContentFile
}.

Fixpoint map_outcome {A B} (f : A -> outcome B) (l : list A)
  : outcome (list B) :=
  match l with
  | [] => Ok []
  | x :: r =>
      match f x with
      | Raise e => Raise e
      | Ok y =>
          match map_outcome f r with
          | Raise e => Raise e
          | Ok ys => Ok (y :: ys)
          end
      end
  end.

Section Serializers.

Context `{C : Collaborators} `{F : RecipeFields}.

(* ---------------------------------------------------------------- *)
(** ** UserSerializer *)

Definition validate_email (db : DB) (email : string) : outcome string :=
  if existsb (fun u => String.eqb (user_email u) email) (tbl_users db)
  then fail "Пользователь с такой почтой уже существует."
  else Ok email.

Definition validate_username (db : DB) (username : string)
  : outcome string :=
  if existsb (fun u => String.eqb (user_username u) username) (tbl_users db)
  then fail "Такой пользователь уже существует."
  else Ok username.

Definition UserSerializer_to_internal_value (db : DB) (data : dict jval)
  : outcome UserData :=
  bound
    (Bound Build_UserData
     <&> ("email",
          then_hook (EmailField (Some 254%nat) (dict_get "email" data))
                    (validate_email db))
     <&> ("username",
          then_hook (CharField (Some 150%nat) [] (dict_get "username" data))
                    (validate_username db))
     <&> ("first_name",
          CharField (Some 150%nat) [] (dict_get "first_name" data))
     <&> ("last_name",
          CharField (Some 150%nat) [] (dict_get "last_name" data))
     <&> ("password",
          CharField (Some 150%nat) [] (dict_get "password" data))).

Definition UserSerializer_run_validation (db : DB) (data : dict jval)
  : outcome UserData :=
  run_validation (UserSerializer_to_internal_value db data) Ok.

(** [super().create(validated_data)] is the manager's [create] on the
    validated fields: one INSERT of the fields as they are given. *)
Definition User_objects_create (validated_data : UserData) : M User :=
  pk <- query seq_user ;;
  let user :=
    {| user_id := pk;
       user_email := vd_email validated_data;
       user_username := vd_username validated_data;
       user_first_name := vd_first_name validated_data;
       user_last_name := vd_last_name validated_data;
       user_password := vd_password validated_data |} in
  write (fun db => set_seq_user (pk + 1)
                     (set_users (fun rows => rows ++ [user]) db)) ;;;
  ret user.

(** [user.set_password(raw)]: changes the object in memory only. *)
Definition set_password (user : User) (raw : string) : User :=
  {| user_id := user_id user;
     user_email := user_email user;
     user_username := user_username user;
     user_first_name := user_first_name user;
     user_last_name := user_last_name user;
     user_password := make_password raw |}.

(** [instance.save()] of an object that has a primary key: UPDATE of its
    row, INSERT when there is none. *)
Definition upsert {R} (pk : R -> Z) (x : R) (rows : list R) : list R :=
  if existsb (fun r => pk r =? pk x) rows
  then map (fun r => if pk r =? pk x then x else r) rows
  else rows ++ [x].

Definition User_save (user : User) : M unit :=
  write (set_users (upsert user_id user)).

Definition UserSerializer_create (validated_data : UserData) : M User :=
  user <- User_objects_create validated_data ;;
  let user := set_password user (vd_password validated_data) in
  User_save user ;;;
  ret user.

(** The create view's use of the serializer:
    [serializer.is_valid(raise_exception=True); serializer.save()]. *)
Definition signup (data : dict jval) : M User :=
  db <- query (fun db => db) ;;
  validated_data <- lift (UserSerializer_run_validation db data) ;;
  UserSerializer_create validated_data.

(* ---------------------------------------------------------------- *)
(** ** UserSubsribedSerializer *)

(** [user.id]; the anonymous user's id is [None]. *)
Definition request_user_id (u : RequestUser) : option Z :=
  match u with
  | Authenticated u => Some (user_id u)
  | AnonymousUser => None
  end.

(** Modelled from the spec: [obj.following] is the reverse side of the
    "following" relation, the edges that point to the author [obj]. *)
Definition following (db : DB) (obj : User) : list Follow :=
  filter (fun f => follow_author f =? user_id obj) (tbl_follows db).

(** [filter(user=value)] on edges; [user=None] matches no row. *)
Definition by_follower (id : option Z) (f : Follow) : bool :=
  match id with
  | Some i => follow_user f =? i
  | None => false
  end.

Definition get_is_subscribed (db : DB) (request : Request) (obj : User)
  : bool :=
  let user := request_user request in
  if is_authenticated user
     && Py.truthy_list
          (filter (by_follower (request_user_id user)) (following db obj))
  then true
  else false.

Definition UserSubsribedSerializer (db : DB) (request : Request)
  (obj : User) : UserRep :=
  {| rep_user_id := user_id obj;
     rep_email := user_email obj;
     rep_username := user_username obj;
     rep_first_name := user_first_name obj;
     rep_last_name := user_last_name obj;
     rep_is_subscribed := get_is_subscribed db request obj |}.

(* ---------------------------------------------------------------- *)
(** ** RecipesSmallSerializer and UserFullSerializer *)

(** The serializer is built without a context in [get_recipes]: its image
    field shows the URL as the storage gives it, and a null for a recipe
    without an image. *)
Definition RecipesSmallSerializer (r : Recipes) : RecipeSmallRep :=
  {| small_id := recipe_id r;
     small_name := recipe_name r;
     small_image :=
       if Py.truthy_str (recipe_image r)
       then Some (storage_url (recipe_image r))
       else None;
     small_cooking_time := recipe_cooking_time r |}.

(** Modelled from the spec: [user.recipe] and
    [Recipes.objects.filter(author=user)] are the author's recipes. *)
Definition recipes_of (db : DB) (user : User) : list Recipes :=
  filter (fun r => recipe_author r =? user_id user) (tbl_recipes db).

(** The largest value of a 64-bit integer, the type of a LIMIT and of a
    primary key in the storage back ends. *)
Definition max_bigint : Z := 9223372036854775807.

(** [queryset[:n]], evaluated: a negative bound is refused by the query set
    (with an [AssertionError]; later versions of the framework raise
    [ValueError]); the bound is sent as the LIMIT of the statement, and
    one beyond the 64-bit range is refused by the database when the
    statement runs. *)
Definition slice_to {A} (n : Z) (l : list A) : outcome (list A) :=
  if n <? 0 then Raise AssertionError
  else if max_bigint <? n then Raise DatabaseError
  else Ok (firstn (Z.to_nat n) l).

Definition get_recipes (db : DB) (request : Request) (user : User)
  : outcome (list RecipeSmallRep) :=
  let limit := QueryDict_get "recipes_limit" (query_params request) in
  match
    match limit with
    | Some s =>
        if Py.truthy_str s
        then match Py.int s with
             | Some n => slice_to n (recipes_of db user)
             | None => Raise ValueError
             end
        else Ok (recipes_of db user)
    | None => Ok (recipes_of db user)
    end
  with
  | Ok queryset => Ok (map RecipesSmallSerializer queryset)
  | Raise e => Raise e
  end.

(** [recipes_count]: [source='recipe.count']. *)
Definition recipes_count (db : DB) (user : User) : Z :=
  Z.of_nat (List.length (recipes_of db user)).

(* ---------------------------------------------------------------- *)
(** ** SetPasswordSerializer *)

(** The acting user [self.context['request'].user] is a stored user: the
    password endpoint is for authenticated users. *)

Definition validate_new_password (user : User) (password : string)
  : outcome string :=
  match validate_password password user with
  | [] => Ok password
  | msgs => Raise (ValidationError (Messages msgs))
  end.

Definition validate_current_password (user : User) (password : string)
  : outcome string :=
  if negb (check_password password (user_password user))
  then fail "Текущий пароль указан неверно."
  else Ok password.

Definition SetPasswordSerializer_validate (data : PasswordData)
  : outcome PasswordData :=
  if String.eqb (current_password data) (new_password data)
  then fail "Пароли не должны совпадать."
  else Ok data.

Definition SetPasswordSerializer_to_internal_value (user : User)
  (data : dict jval) : outcome PasswordData :=
  bound
    (Bound Build_PasswordData
     <&> ("new_password",
          then_hook
            (CharField (Some 150%nat) [] (dict_get "new_password" data))
            (validate_new_password user))
     <&> ("current_password",
          then_hook (CharField None [] (dict_get "current_password" data))
                    (validate_current_password user))).

Definition SetPasswordSerializer_run_validation (user : User)
  (data : dict jval) : outcome PasswordData :=
  run_validation (SetPasswordSerializer_to_internal_value user data)
                 SetPasswordSerializer_validate.

(* ---------------------------------------------------------------- *)
(** ** IngredientsSerializer *)

Definition validate_amount (amount : Z) : outcome Z :=
  if amount <=? 0
  then fail "Убедитесь, что данное значение больше 0"
  else Ok amount.

(** [name] and [measurement_unit] are read-only and take no input. *)
Definition IngredientsSerializer_to_internal_value (db : DB)
  (data : dict jval) : outcome IngredientEntry :=
  bound
    (Bound Build_IngredientEntry
     <&> ("id",
          PrimaryKeyRelatedField ingredient_id (tbl_ingredients db)
                                 (dict_get "id" data))
     <&> ("amount",
          then_hook (IntegerField (dict_get "amount" data))
                    validate_amount)).

(* ---------------------------------------------------------------- *)
(** ** TagsSerializer and IngredientsRecipeSerializer *)

Definition TagsSerializer (t : Tags) : TagRep :=
  {| tr_id := tag_id t;
     tr_name := tag_name t;
     tr_color := tag_color t;
     tr_slug := tag_slug t |}.

(** [line.ingredient]: the row the foreign key points to. *)
Definition line_ingredient_row (db : DB) (line : RecipesIngridients)
  : option Ingredients :=
  find (fun i => ingredient_id i =? line_ingredient line)
       (tbl_ingredients db).

Definition IngredientsRecipeSerializer (db : DB)
  (line : RecipesIngridients) : outcome LineRep :=
  match line_ingredient_row db line with
  | None => Raise DoesNotExist
  | Some i =>
      Ok {| lr_id := Py.str_of_int (line_ingredient line);
            lr_amount := line_amount line;
            lr_name := ingredient_name i;
            lr_measurement_unit := ingredient_measurement_unit i |}
  end.

End Serializers.

Section RecipesSerializer.

Context `{C : Collaborators} `{F : RecipeFields}.

(** [user.favorite.filter(user=user.id, recipe=obj.id)] and the same on
    [user.shoppingcarts]: the rows of the relation that belong to the
    user, filtered by user and recipe. *)
Definition edges_of (rows : list UserRecipe) (user : RequestUser)
  (obj : Recipes) : list UserRecipe :=
  match request_user_id user with
  | Some id =>
      filter (fun e => (edge_user e =? id) && (edge_recipe e =? recipe_id obj))
             (filter (fun e => edge_user e =? id) rows)
  | None => []
  end.

Definition get_is_favorited (db : DB) (request : Request) (obj : Recipes)
  : bool :=
  let user := request_user request in
  if is_authenticated user
     && Py.truthy_list (edges_of (tbl_favorites db) user obj)
  then true
  else false.

Definition get_is_in_shopping_cart (db : DB) (request : Request)
  (obj : Recipes) : bool :=
  let user := request_user request in
  if is_authenticated user
     && Py.truthy_list (edges_of (tbl_shoppingcarts db) user obj)
  then true
  else false.

Definition validate_cooking_time (time : Z) : outcome Z :=
  if time <=? 0
  then Raise (ValidationError (Messages ["Invalid input."]))
  else Ok time.

(** The [author] field: a nested user serializer whose default is the
    current user. *)
Definition author_field (db : DB) (request : Request) (data : option jval)
  : outcome AuthorValue :=
  match data with
  | None => Ok (CurrentUser (request_user request))
  | Some JNull => fail "This field may not be null."
  | Some (JDict d) =>
      match UserSerializer_run_validation db d with
      | Ok v => Ok (AuthorData v)
      | Raise e => Raise e
      end
  | Some v =>
      Raise (ValidationError (FieldErrors
        [("non_field_errors",
          Messages [("Invalid data. Expected a dictionary, but got "
                       ++ type_name v ++ ".")%string])]))
  end.

(** [super().to_internal_value(data)]: the framework's loop over the
    writable fields, in the order of [Meta.fields]. *)
Definition super_to_internal_value (db : DB) (request : Request)
  (partial : bool) (data : dict jval) : outcome RecipeData :=
  bound
    (Bound Build_RecipeData
     <&> ("tags", skippable partial (tags_field db) (dict_get "tags" data))
     <&> ("author",
          skippable partial (author_field db request)
                    (dict_get "author" data))
     <&> ("ingredients",
          skippable partial
            (ListSerializer (IngredientsSerializer_to_internal_value db))
            (dict_get "ingredients" data))
     <&> ("name", skippable partial name_field (dict_get "name" data))
     <&> ("image", skippable partial ImageField (dict_get "image" data))
     <&> ("text", skippable partial text_field (dict_get "text" data))
     <&> ("cooking_time",
          skippable partial
            (fun v => then_hook (cooking_time_field v) validate_cooking_time)
            (dict_get "cooking_time" data))).

(** [uuid4] is the text of the identifier that [uuid.uuid4()] draws. *)
Definition RecipesSerializer_to_internal_value (uuid4 : string) (db : DB)
  (request : Request) (partial : bool) (data : dict jval)
  : outcome RecipeData :=
  if negb (truthy (dict_get "image" data))
  then super_to_internal_value db request partial data
  else
    match dict_get "image" data with
    | Some (JStr s) =>
        let image := Py.last_item (Py.split "," s) "" in
        match b64decode image with
        | None => Raise BinasciiError
        | Some decoded_file =>
            match Image_open_format decoded_file with
            | None => Raise UnidentifiedImageError
            | Some filetype =>
                let file_name := uuid4 in
                let data :=
                  dict_set "image"
                    (JFile {| file_content := decoded_file;
                              file_name :=
                                (file_name ++ "." ++ filetype)%string |})
                    data in
                super_to_internal_value db request partial data
            end
        end
    | _ => Raise AttributeError        (* no [split] on the value *)
    end.

(** [instance.tags.all()] *)
Definition tags_all (db : DB) (instance : Recipes) : list Tags :=
  filter
    (fun t =>
       existsb (fun rt => (rt_recipe rt =? recipe_id instance)
                          && (rt_tag rt =? tag_id t))
               (tbl_recipe_tags db))
    (tbl_tags db).

(** [instance.recipes_ingredients.all()]: the lines the recipe owns. *)
Definition recipes_ingredients_all (db : DB) (instance : Recipes)
  : list RecipesIngridients :=
  filter (fun l => line_recipe l =? recipe_id instance) (tbl_lines db).

(** The image path shown to clients: the last four segments of the URL. *)
Definition short_image (url : string) : string :=
  ("/" ++ Py.join "/" (Py.last_slice 4 (Py.split "/" url)))%string.

(** [to_representation]: the field-by-field projection, in which the
    image, the tags and the ingredients are then replaced.  The values
    the projection first computes for the three replaced keys are not
    kept and are left out here. *)
Definition RecipesSerializer_to_representation (db : DB)
  (request : Request) (instance : Recipes) : outcome RecipeRep :=
  match find (fun u => user_id u =? recipe_author instance) (tbl_users db)
  with
  | None => Raise DoesNotExist
  | Some author =>
      if Py.truthy_str (recipe_image instance) then
        match map_outcome (IngredientsRecipeSerializer db)
                          (recipes_ingredients_all db instance) with
        | Raise e => Raise e
        | Ok ingredients =>
            Ok {| rep_id := recipe_id instance;
                  rep_tags := map TagsSerializer (tags_all db instance);
                  rep_author := UserSubsribedSerializer db request author;
                  rep_ingredients := ingredients;
                  rep_is_favorited := get_is_favorited db request instance;
                  rep_is_in_shopping_cart :=
                    get_is_in_shopping_cart db request instance;
                  rep_name := recipe_name instance;
                  rep_image :=
                    short_image
                      (build_absolute_uri
                         (storage_url (recipe_image instance)));
                  rep_text := recipe_text instance;
                  rep_cooking_time := recipe_cooking_time instance |}
        end
      else Raise AttributeError      (* the image is [None]: no [split] *)
  end.

(** The keyword arguments other than tags and ingredients, as the model
    class takes them: the author must be a stored user, the cooking time
    has no default. *)
Definition Recipes_objects_create (validated_data : RecipeData)
  : M Recipes :=
  match vd_author validated_data, vd_cooking_time validated_data with
  | Some (CurrentUser (Authenticated author)), Some time =>
      pk <- query seq_recipe ;;
      let recipe :=
        {| recipe_id := pk;
           recipe_author := user_id author;
           recipe_name :=
             match vd_name validated_data with Some s => s | None => "" end;
           recipe_image :=
             match vd_image validated_data with
             | Some f => storage_save f
             | None => ""
             end;
           recipe_text :=
             match vd_text validated_data with Some s => s | None => "" end;
           recipe_cooking_time := time |} in
      write (fun db => set_seq_recipe (pk + 1)
                         (set_recipes (fun rows => rows ++ [recipe]) db)) ;;;
      ret recipe
  | Some (CurrentUser AnonymousUser), _
  | Some (AuthorData _), _ => raise ValueError
  | _, _ => raise IntegrityError
  end.

(** [recipe.tags.set(tags)]: afterwards the recipe's rows of the
    many-to-many table are the given tags, each once.  Rows of tags that
    are not given go, rows of given tags stay, the missing ones are
    added. *)
Definition rows_after_set (rid : Z) (ids : list Z) (rows : list RecipeTag)
  : list RecipeTag :=
  let kept :=
    filter (fun rt => negb (rt_recipe rt =? rid)
                      || existsb (Z.eqb (rt_tag rt)) ids) rows in
  let old := map rt_tag (filter (fun rt => rt_recipe rt =? rid) kept) in
  kept ++ map (fun t => {| rt_recipe := rid; rt_tag := t |})
              (filter (fun t => negb (existsb (Z.eqb t) old))
                      (nodup Z.eq_dec ids)).

Definition tags_set (recipe : Recipes) (tags : list Tags) : M unit :=
  write (set_recipe_tags
           (rows_after_set (recipe_id recipe) (map tag_id tags))).

(** [RecipesIngridients.objects.create(ingredient=..., recipe=...,
    amount=...)]; the ingredient column takes no null. *)
Definition RecipesIngridients_objects_create
  (ingredient : option Ingredients) (recipe : Recipes) (amount : Z)
  : M RecipesIngridients :=
  match ingredient with
  | None => raise IntegrityError
  | Some i =>
      pk <- query seq_line ;;
      let line :=
        {| line_id := pk;
           line_recipe := recipe_id recipe;
           line_ingredient := ingredient_id i;
           line_amount := amount |} in
      write (fun db => set_seq_line (pk + 1)
                         (set_lines (fun rows => rows ++ [line]) db)) ;;;
      ret line
  end.

(** The loop [for ingredient in ingredients: ...], the same statements in
    [create] and in [update]. *)
Definition add_ingredients (recipe : Recipes)
  (ingredients : list IngredientEntry) : M unit :=
  for_each ingredients (fun ingredient =>
    current_ingredient <-
      query (fun db =>
               find (fun i => ingredient_id i
                              =? ingredient_id (entry_id ingredient))
                    (tbl_ingredients db)) ;;
    RecipesIngridients_objects_create current_ingredient recipe
                                      (entry_amount ingredient) ;;;
    ret tt).

Definition RecipesSerializer_create (validated_data : RecipeData)
  : M Recipes :=
  match vd_ingredients validated_data with
  | None => raise (KeyError "ingredients")
  | Some ingredients =>
      match vd_tags validated_data with
      | None => raise (KeyError "tags")
      | Some tags =>
          recipe <- Recipes_objects_create validated_data ;;
          tags_set recipe tags ;;;
          add_ingredients recipe ingredients ;;;
          ret recipe
      end
  end.

(** [i.delete()] *)
Definition line_delete (i : RecipesIngridients) : M unit :=
  write (set_lines (filter (fun l => negb (line_id l =? line_id i)))).

(** [for key, value in validated_data.items(): setattr(recipe, key,
    value)] on what the two [pop]s left, in the order of the keys.  A
    "tags" or "ingredients" key is still there when its list is empty;
    assigning to a many-to-many attribute is refused by the model class.
    The author must be a stored user. *)
Definition set_remaining (recipe : Recipes) (tags : option (list Tags))
  (ingredients : option (list IngredientEntry))
  (validated_data : RecipeData) : outcome Recipes :=
  match tags with
  | Some _ => Raise TypeError
  | None =>
      match
        match vd_author validated_data with
        | None => Ok (recipe_author recipe)
        | Some (CurrentUser (Authenticated author)) => Ok (user_id author)
        | Some _ => Raise ValueError
        end
      with
      | Raise e => Raise e
      | Ok author =>
          match ingredients with
          | Some _ => Raise TypeError
          | None =>
              Ok {| recipe_id := recipe_id recipe;
                    recipe_author := author;
                    recipe_name :=
                      match vd_name validated_data with
                      | Some s => s
                      | None => recipe_name recipe
                      end;
                    recipe_image :=
                      match vd_image validated_data with
                      | Some f => storage_save f
                      | None => recipe_image recipe
                      end;
                    recipe_text :=
                      match vd_text validated_data with
                      | Some s => s
                      | None => recipe_text recipe
                      end;
                    recipe_cooking_time :=
                      match vd_cooking_time validated_data with
                      | Some t => t
                      | None => recipe_cooking_time recipe
                      end |}
          end
      end
  end.

Definition Recipes_save (recipe : Recipes) : M unit :=
  write (set_recipes (upsert recipe_id recipe)).

Definition RecipesSerializer_update (recipe : Recipes)
  (validated_data : RecipeData) : M Recipes :=
  (* update tags: the key is popped only when its list is not empty *)
  tags_left <-
    match vd_tags validated_data with
    | Some (t :: ts) => tags_set recipe (t :: ts) ;;; ret None
    | other => ret other
    end ;;
  (* update ingredients *)
  let '(ingredients, ingredients_left) :=
    match vd_ingredients validated_data with
    | Some (i :: l) => (Some (i :: l), None)
    | other => (None, other)
    end in
  match ingredients with
  | Some (i :: l) =>
      rows <- query (fun db =>
                filter (fun r => line_recipe r =? recipe_id recipe)
                       (tbl_lines db)) ;;
      for_each rows line_delete ;;;
      add_ingredients recipe (i :: l)
  | _ => ret tt
  end ;;;
  (* update all remaining fields *)
  recipe' <- lift (set_remaining recipe tags_left ingredients_left
                                 validated_data) ;;
  Recipes_save recipe' ;;;
  ret recipe'.

End RecipesSerializer.

(* ================================================================== *)
(** * Specification-level definitions *)
(* ================================================================== *)

(** The lines that [add_ingredients] inserts for the entries [es] of the
    recipe [rid] when the line sequence stands at [pk]. *)
Fixpoint numbered_lines (rid pk : Z) (es : list IngredientEntry)
  : list RecipesIngridients :=
  match es with
  | [] => []
  | e :: r =>
      {| line_id := pk;
         line_recipe := rid;
         line_ingredient := ingredient_id (entry_id e);
         line_amount := entry_amount e |} :: numbered_lines rid (pk + 1) r
  end.

(** What a read shows of a line created from the entry [e]. *)
Definition entry_rep (e : IngredientEntry) : LineRep :=
  {| lr_id := Py.str_of_int (ingredient_id (entry_id e));
     lr_amount := entry_amount e;
     lr_name := ingredient_name (entry_id e);
     lr_measurement_unit := ingredient_measurement_unit (entry_id e) |}.


Fixpoint has_char (c : ascii) (s : string) : bool :=
  match s with
  | EmptyString => false
  | String c' r => Ascii.eqb c' c || has_char c r
  end.

(** An outcome that is a value or a validation error: nothing that would
    end the framework's loop. *)
Definition validation_only {A} (o : outcome A) : Prop :=
  match o with
  | Ok _ | Raise (ValidationError _) => True
  | Raise _ => False
  end.

(** The loop keeps a validation error as an entry of [Errors]; what it
    holds in [Aborted] is another exception. *)
Definition proper {A} (b : binding A) : Prop :=
  match b with
  | Aborted (ValidationError _) => False
  | _ => True
  end.

(** The row that the first write of [create] inserts. *)
Definition inserted_user (db : DB) (validated_data : UserData) : User :=
  {| user_id := seq_user db;
     user_email := vd_email validated_data;
     user_username := vd_username validated_data;
     user_first_name := vd_first_name validated_data;
     user_last_name := vd_last_name validated_data;
     user_password := vd_password validated_data |}.


(** What the storage layer guarantees of the tables: primary keys are
    unique and below their sequence, and a line refers to a recipe that
    has been created. *)
Record db_wf (db : DB) : Prop := {
  wf_line_ids : NoDup (map line_id (tbl_lines db));
  wf_line_seq : forall l, In l (tbl_lines db) -> line_id l < seq_line db;
  wf_line_recipe :
    forall l, In l (tbl_lines db) -> line_recipe l < seq_recipe db;
  wf_tag_ids : NoDup (map tag_id (tbl_tags db));
  wf_ingredient_ids : NoDup (map ingredient_id (tbl_ingredients db))
}.

(** What signup keeps of the users table: primary keys are unique and
    below the sequence, and no two users share an e-mail or a username. *)
Record users_unique (db : DB) : Prop := {
  uu_ids : forall u, In u (tbl_users db) -> user_id u < seq_user db;
  uu_emails : NoDup (map user_email (tbl_users db));
  uu_usernames : NoDup (map user_username (tbl_users db))
}.

(** The five fields of a signup payload as their fields bind them. *)
Definition signup_fields `{Collaborators} (data : dict jval)
  (v : UserData) : Prop :=
  EmailField (Some 254%nat) (dict_get "email" data) = Ok (vd_email v)
  /\ CharField (Some 150%nat) [] (dict_get "username" data)
     = Ok (vd_username v)
  /\ CharField (Some 150%nat) [] (dict_get "first_name" data)
     = Ok (vd_first_name v)
  /\ CharField (Some 150%nat) [] (dict_get "last_name" data)
     = Ok (vd_last_name v)
  /\ CharField (Some 150%nat) [] (dict_get "password" data)
     = Ok (vd_password v).

(** No stored user has the e-mail, respectively the username. *)
Definition email_free (db : DB) (email : string) : Prop :=
  forall u, In u (tbl_users db) -> user_email u <> email.

Definition username_free (db : DB) (username : string) : Prop :=
  forall u, In u (tbl_users db) -> user_username u <> username.







(** A binding that still collects: no exception has ended the loop. *)
Definition collecting {A} (b : binding A) : Prop :=
  match b with
  | Aborted _ => False
  | _ => True
  end.


(** A text of decimal digits only. *)
Fixpoint all_digits (s : string) : bool :=
  match s with
  | EmptyString => true
  | String c r =>
      match Py.digit_of c with
      | Some _ => all_digits r
      | None => false
      end
  end.

(** What a read shows of the tag [t]. *)
Definition shows_tag (x : TagRep) (t : Tags) : Prop :=
  tr_id x = tag_id t
  /\ tr_name x = tag_name t
  /\ tr_color x = tag_color t
  /\ tr_slug x = tag_slug t.

(* ================================================================== *)
(** * Reference collaborators for the worked examples *)
(* ================================================================== *)

Module Demo.

Definition hash (raw : string) : string := ("pbkdf2_sha256$" ++ raw)%string.

(** The value of a character of the base64 alphabet. *)
Definition b64_value (c : ascii) : option N :=
  let n := N_of_ascii c in
  (if (65 <=? n) && (n <=? 90) then Some (n - 65)
   else if (97 <=? n) && (n <=? 122) then Some (n - 71)
   else if (48 <=? n) && (n <=? 57) then Some (n + 4)
   else if n =? 43 then Some 62
   else if n =? 47 then Some 63
   else None)%N.

Definition byte_of (n : N) : Byte.byte :=
  byte_of_ascii (ascii_of_N (n mod 256)).

Definition push (b : N) (rest : option (list Byte.byte))
  : option (list Byte.byte) :=
  option_map (cons (byte_of b)) rest.

(** The decoder as [base64.b64decode] runs it: characters outside the
    alphabet are skipped, a complete padding ends the text, and a last
    group that is not complete is an error.  [quad_pos] is the position
    in the group of four, [leftchar] the bits not yet written, [pads] the
    padding characters seen in a row. *)
Fixpoint a2b (s : string) (quad_pos : nat) (leftchar : N) (pads : nat)
  : option (list Byte.byte) :=
  match s with
  | EmptyString => match quad_pos with O => Some [] | _ => None end
  | String c r =>
      if Ascii.eqb c "="%char then
        if (2 <=? quad_pos)%nat then
          if (4 <=? quad_pos + S pads)%nat then Some []
          else a2b r quad_pos leftchar (S pads)
        else a2b r quad_pos leftchar pads
      else
        match b64_value c with
        | None => a2b r quad_pos leftchar pads
        | Some v =>
            match quad_pos with
            | 0%nat => a2b r 1%nat v 0%nat
            | 1%nat =>
                push (leftchar * 4 + v / 16)%N
                     (a2b r 2%nat (v mod 16)%N 0%nat)
            | 2%nat =>
                push (leftchar * 16 + v / 4)%N
                     (a2b r 3%nat (v mod 4)%N 0%nat)
            | _ => push (leftchar * 64 + v)%N (a2b r 0%nat 0%N 0%nat)
            end
        end
  end.

Definition decode (s : string) : option (list Byte.byte) :=
  a2b s 0%nat 0%N 0%nat.

(** The eight bytes every PNG file starts with. *)
Definition png_magic : list Byte.byte :=
  map byte_of [137; 80; 78; 71; 13; 10; 26; 10]%N.

Definition sniff (b : list Byte.byte) : option string :=
  if list_eq_dec Byte.byte_eq_dec (firstn 8 b) png_magic
  then Some "PNG" else None.

#[export] Instance collaborators : Collaborators := {|
  make_password := hash;
  check_password := fun raw encoded => String.eqb (hash raw) encoded;
  validate_password := fun password _ =>
    if (String.length password <? 8)%nat
    then ["This password is too short."] else [];
  EmailValidator := has_char "@";
  b64decode := decode;
  Image_open_format := sniff;
  storage_save := fun f => ("recipes/" ++ file_name f)%string;
  storage_url := fun path => ("/media/" ++ path)%string;
  build_absolute_uri := fun url => ("http://testserver" ++ url)%string
|}.

#[export] Instance fields : RecipeFields := {|
  tags_field := fun db v =>
    match v with
    | None => fail "This field is required."
    | Some JNull => fail "This field may not be null."
    | Some (JList items) =>
        map_outcome
          (fun item => PrimaryKeyRelatedField tag_id (tbl_tags db) (Some item))
          items
    | Some v =>
        fail ("Expected a list of items but got type "
                ++ quoted (type_name v) ++ ".")%string
    end;
  name_field := CharField (Some 200%nat) [];
  text_field := CharField None [];
  cooking_time_field := IntegerField;
  ImageField := fun v =>
    match v with
    | None => fail "No file was submitted."
    | Some JNull => fail "This field may not be null."
    | Some (JFile f) =>
        if negb (Py.truthy_str (file_name f))
        then fail "No filename could be determined."
        else
          match file_content f, sniff (file_content f) with
          | [], _ => fail "The submitted file is empty."
          | _, Some _ => Ok f
          | _, None =>
              fail "Upload a valid image. The file you uploaded was either not an image or a corrupted image."
          end
    | Some _ =>
        fail "The submitted data was not a file. Check the encoding type on the form."
    end
|}.

Definition alice : User :=
  {| user_id := 1; user_email := "alice@example.com";
     user_username := "alice"; user_first_name := "Alice";
     user_last_name := "A"; user_password := hash "correct horse" |}.

Definition bob : User :=
  {| user_id := 2; user_email := "bob@example.com";
     user_username := "bob"; user_first_name := "Bob";
     user_last_name := "B"; user_password := hash "battery staple" |}.

Definition flour : Ingredients :=
  {| ingredient_id := 1; ingredient_name := "flour";
     ingredient_measurement_unit := "g" |}.

Definition milk : Ingredients :=
  {| ingredient_id := 2; ingredient_name := "milk";
     ingredient_measurement_unit := "ml" |}.

Definition egg : Ingredients :=
  {| ingredient_id := 3; ingredient_name := "egg";
     ingredient_measurement_unit := "pc" |}.

Definition breakfast : Tags :=
  {| tag_id := 1; tag_name := "breakfast"; tag_color := "#E26C2D";
     tag_slug := "breakfast" |}.

Definition dinner : Tags :=
  {| tag_id := 2; tag_name := "dinner"; tag_color := "#8775D2";
     tag_slug := "dinner" |}.

Definition pancakes : Recipes :=
  {| recipe_id := 1; recipe_author := 1; recipe_name := "pancakes";
     recipe_image := "recipes/pancakes.png"; recipe_text := "mix and fry";
     recipe_cooking_time := 20 |}.

Definition omelette : Recipes :=
  {| recipe_id := 2; recipe_author := 1; recipe_name := "omelette";
     recipe_image := "recipes/omelette.png"; recipe_text := "whisk";
     recipe_cooking_time := 10 |}.

(** Two users, bob follows alice; alice has two recipes; the pancakes
    have two lines and one tag. *)
Definition db : DB :=
  {| tbl_users := [alice; bob];
     tbl_follows := [{| follow_user := 2; follow_author := 1 |}];
     tbl_favorites := [];
     tbl_shoppingcarts := [];
     tbl_tags := [breakfast; dinner];
     tbl_ingredients := [flour; milk; egg];
     tbl_recipes := [pancakes; omelette];
     tbl_recipe_tags := [{| rt_recipe := 1; rt_tag := 1 |}];
     tbl_lines :=
       [{| line_id := 1; line_recipe := 1; line_ingredient := 1;
           line_amount := 200 |};
        {| line_id := 2; line_recipe := 1; line_ingredient := 2;
           line_amount := 300 |};
        {| line_id := 3; line_recipe := 2; line_ingredient := 3;
           line_amount := 2 |}];
     seq_user := 3; seq_recipe := 3; seq_line := 4 |}.

Definition as_bob : Request :=
  {| request_user := Authenticated bob; query_params := [] |}.

Definition as_alice : Request :=
  {| request_user := Authenticated alice; query_params := [] |}.

Definition drawn_uuid : string := "1b4e28ba-2fa1-41d2-883f-0016d3cca427".

(** A PNG file of one grey pixel, and the data URI that carries it. *)
Definition pixel_png : list Byte.byte :=
  map byte_of
    [137; 80; 78; 71; 13; 10; 26; 10; 0; 0; 0; 13; 73; 72; 68; 82; 0; 0; 0;
     1; 0; 0; 0; 1; 8; 0; 0; 0; 0; 58; 126; 155; 85; 0; 0; 0; 10; 73; 68;
     65; 84; 120; 218; 99; 104; 0; 0; 0; 130; 0; 129; 218; 69; 8; 59; 0; 0;
     0; 0; 73; 69; 78; 68; 174; 66; 96; 130]%N.

Definition pixel_uri : string :=
  "data:image/png;base64,iVBORw0KGgoAAAANSUhEUgAAAAEAAAABCAAAAAA6fptVAAAACklEQVR42mNoAAAAggCB2kUIOwAAAABJRU5ErkJggg==".

Definition pixel_file : ContentFile :=
  {| file_content := pixel_png;
     file_name := "1b4e28ba-2fa1-41d2-883f-0016d3cca427.PNG" |}.


Definition empty_image_payload : dict jval :=
  [("name", JStr "pancakes"); ("image", JStr "");
   ("cooking_time", JNum 20)].

(** A password of 151 characters. *)
Definition long_password : string :=
  string_of_list_ascii (repeat "x"%char 151).

(** Validated data of an update that replaces the ingredient lines and
    names no tags. *)
Definition new_lines_data : RecipeData :=
  {| vd_tags := None;
     vd_author := None;
     vd_ingredients := Some [{| entry_id := egg; entry_amount := 3 |}];
     vd_name := None;
     vd_image := None;
     vd_text := None;
     vd_cooking_time := Some 25 |}.

(** Validated data of a new recipe with two lines and two tags. *)
Definition crepes_data : RecipeData :=
  {| vd_tags := Some [dinner; breakfast];
     vd_author := Some (CurrentUser (Authenticated alice));
     vd_ingredients :=
       Some [{| entry_id := milk; entry_amount := 500 |};
             {| entry_id := flour; entry_amount := 250 |}];
     vd_name := Some "crepes";
     vd_image := Some pixel_file;
     vd_text := Some "rest the batter";
     vd_cooking_time := Some 30 |}.

(** The same with the tag dinner named twice. *)
Definition twice_tagged_data : RecipeData :=
  {| vd_tags := Some [dinner; dinner];
     vd_author := Some (CurrentUser (Authenticated alice));
     vd_ingredients :=
       Some [{| entry_id := milk; entry_amount := 500 |};
             {| entry_id := flour; entry_amount := 250 |}];
     vd_name := Some "crepes";
     vd_image := Some pixel_file;
     vd_text := Some "rest the batter";
     vd_cooking_time := Some 30 |}.

Definition signup_payload (email username : string) : dict jval :=
  [("email", JStr email); ("username", JStr username);
   ("first_name", JStr "Carol"); ("last_name", JStr "C");
   ("password", JStr "hunter2hunter2")].

(** The user the signup of carol creates. *)
Definition carol : User :=
  {| user_id := 3; user_email := "carol@example.com";
     user_username := "carol"; user_first_name := "Carol";
     user_last_name := "C"; user_password := hash "hunter2hunter2" |}.

(** A payload that binds to [crepes_data] for alice. *)
Definition crepes_payload : dict jval :=
  [("tags", JList [JNum 2; JNum 1]);
   ("ingredients",
    JList [JDict [("id", JNum 2); ("amount", JNum 500)];
           JDict [("id", JNum 1); ("amount", JNum 250)]]);
   ("name", JStr "crepes");
   ("image", JStr pixel_uri);
   ("text", JStr "rest the batter");
   ("cooking_time", JNum 30)].





(** The recipe that creating [crepes_data] returns. *)
Definition crepes : Recipes :=
  {| recipe_id := 3; recipe_author := 1; recipe_name := "crepes";
     recipe_image := "recipes/1b4e28ba-2fa1-41d2-883f-0016d3cca427.PNG";
     recipe_text := "rest the batter"; recipe_cooking_time := 30 |}.

(** Validated data of an update that names one tag and a new text. *)
Definition retag_data : RecipeData :=
  {| vd_tags := Some [dinner];
     vd_author := None;
     vd_ingredients := None;
     vd_name := None;
     vd_image := None;
     vd_text := Some "mix, rest and fry";
     vd_cooking_time := None |}.

End Demo.

(* ================================================================== *)
(** * Lemmas on the built-ins *)
(* ================================================================== *)

(** Every element of a given list is in a given list. *)
Ltac forall_in :=
  repeat first [apply Forall_nil | apply Forall_cons; [cbn; intuition|]].

Lemma truthy_str_iff (s : string) : Py.truthy_str s = true <-> s <> "".
Proof.
  destruct s; simpl; split; intro H; try discriminate; auto.
Qed.

Lemma truthy_filter {A} (p : A -> bool) (l : list A) :
  Py.truthy_list (filter p l) = true <-> exists x, In x l /\ p x = true.
Proof.
  split.
  - intro H. destruct (filter p l) as [|x r] eqn:E; [discriminate|].
    exists x. apply filter_In. rewrite E. now left.
  - intros [x Hx]. apply filter_In in Hx.
    destruct (filter p l); [contradiction | reflexivity].
Qed.








Lemma dict_get_set_other {V} (k k0 : string) (v : V) (d : dict V) :
  k0 <> k -> dict_get k0 (dict_set k v d) = dict_get k0 d.
Proof.
  intro Hne. induction d as [|[k' v'] d IH]; simpl.
  - destruct (String.eqb_spec k0 k); [contradiction | reflexivity].
  - destruct (String.eqb_spec k k') as [->|Hk]; simpl.
    + destruct (String.eqb_spec k0 k'); [contradiction | reflexivity].
    + now rewrite IH.
Qed.


(* ================================================================== *)
(** * The decimal text of an integer reads back as the integer *)
(* ================================================================== *)

Lemma digit_is_no_space (c : ascii) (d : Z) :
  Py.digit_of c = Some d -> Py.int_space c = false.
Proof.
  destruct c as [[] [] [] [] [] [] [] []]; cbn; intro H;
    try discriminate H; reflexivity.
Qed.

Lemma all_digits_uint (u : Decimal.uint) :
  all_digits (NilEmpty.string_of_uint u) = true.
Proof. induction u; cbn; auto. Qed.

Lemma all_digits_drop_spaces (s : string) :
  all_digits s = true -> Py.drop_spaces s = s.
Proof.
  destruct s as [|c r]; cbn; [reflexivity|].
  destruct (Py.digit_of c) as [d|] eqn:E; [|discriminate].
  intros _. now rewrite (digit_is_no_space c d E).
Qed.

Lemma all_digits_rev_append (s acc : string) :
  all_digits s = true -> all_digits acc = true ->
  all_digits (Py.rev_append s acc) = true.
Proof.
  revert acc. induction s as [|c r IH]; cbn; intros acc Hs Hacc;
    [assumption|].
  destruct (Py.digit_of c) as [d|] eqn:E; [|discriminate].
  apply IH; [assumption|]. cbn. now rewrite E.
Qed.

Lemma append_nil_r (s : string) : (s ++ "")%string = s.
Proof. induction s as [|c r IH]; cbn; [reflexivity | now rewrite IH]. Qed.

Lemma rev_append_rev_append (s acc acc' : string) :
  Py.rev_append (Py.rev_append s acc) acc'
  = Py.rev_append acc (s ++ acc')%string.
Proof.
  revert acc acc'. induction s as [|c r IH]; intros acc acc'; cbn;
    [reflexivity|].
  now rewrite IH.
Qed.

Lemma reversed_involutive (s : string) : Py.reversed (Py.reversed s) = s.
Proof.
  unfold Py.reversed. rewrite rev_append_rev_append. cbn.
  apply append_nil_r.
Qed.

Lemma int_literal_digits (s : string) :
  all_digits s = true -> Py.int_literal s = s.
Proof.
  intro H. unfold Py.int_literal.
  assert (Hr : all_digits (Py.reversed s) = true).
  { unfold Py.reversed. now apply all_digits_rev_append. }
  rewrite (all_digits_drop_spaces _ Hr), reversed_involutive.
  now apply all_digits_drop_spaces.
Qed.

Lemma count_digits_all (s : string) :
  all_digits s = true -> Py.count_digits s = String.length s.
Proof.
  induction s as [|c r IH]; cbn; [reflexivity|].
  destruct (Py.digit_of c); [|discriminate]. intro H. now rewrite IH.
Qed.

(** [digits] reads the digits as the library's conversion from decimal
    numbers does. *)
Lemma digits_of_uint_acc (l : Decimal.uint) (p : positive) :
  Py.digits (Z.pos p) true (NilEmpty.string_of_uint l)
  = Some (Z.pos (Pos.of_uint_acc l p)).
Proof.
  revert p. induction l as [|l IH|l IH|l IH|l IH|l IH|l IH|l IH|l IH|l IH|l IH];
    intro p; [reflexivity| | | | | | | | | |];
    cbn [NilEmpty.string_of_uint Py.digits Pos.of_uint_acc];
    match goal with
    | |- context [Py.digit_of ?c] =>
        let d := eval vm_compute in (Py.digit_of c) in
        change (Py.digit_of c) with d
    end; cbv beta iota;
    match goal with
    | |- Py.digits ?acc true _ = Some (Z.pos (Pos.of_uint_acc l ?q)) =>
        replace acc with (Z.pos q) by lia
    end; apply IH.
Qed.

Lemma digits_of_uint (u : Decimal.uint) :
  u <> Decimal.Nil ->
  Py.digits 0 false (NilEmpty.string_of_uint u)
  = Some (Z.of_N (Pos.of_uint u)).
Proof.
  assert (H : forall prev,
            u <> Decimal.Nil \/ prev = true ->
            Py.digits 0 prev (NilEmpty.string_of_uint u)
            = Some (Z.of_N (Pos.of_uint u))).
  { induction u as [|l IH|l IH|l IH|l IH|l IH|l IH|l IH|l IH|l IH|l IH];
      intros prev Hp.
    - destruct Hp as [Hp | ->]; [congruence | reflexivity].
    - cbn [NilEmpty.string_of_uint Py.digits Pos.of_uint].
      change (Py.digit_of "0") with (Some 0). cbv beta iota.
      change (10 * 0 + 0) with 0. apply IH. now right.
    - apply (digits_of_uint_acc l 1).
    - apply (digits_of_uint_acc l 2).
    - apply (digits_of_uint_acc l 3).
    - apply (digits_of_uint_acc l 4).
    - apply (digits_of_uint_acc l 5).
    - apply (digits_of_uint_acc l 6).
    - apply (digits_of_uint_acc l 7).
    - apply (digits_of_uint_acc l 8).
    - apply (digits_of_uint_acc l 9). }
  intro Hu. apply H. now left.
Qed.

(** A number of [k] further digits is at least its leading part times the
    [k]th power of ten. *)
Lemma of_uint_acc_lower (l : Decimal.uint) (p : positive) :
  Z.pos p * 10 ^ Z.of_nat (String.length (NilEmpty.string_of_uint l))
  <= Z.pos (Pos.of_uint_acc l p).
Proof.
  revert p. induction l as [|l IH|l IH|l IH|l IH|l IH|l IH|l IH|l IH|l IH|l IH];
    intro p; [cbn; lia| | | | | | | | | |];
    cbn [NilEmpty.string_of_uint String.length Pos.of_uint_acc];
    rewrite Nat2Z.inj_succ, Z.pow_succ_r by lia;
    match goal with
    | |- _ <= Z.pos (Pos.of_uint_acc l ?q) =>
        specialize (IH q);
        assert (0 <= 10 ^ Z.of_nat
                         (String.length (NilEmpty.string_of_uint l)))
          by (apply Z.pow_nonneg; lia);
        nia
    end.
Qed.

(** The decimal text of a positive number starts with a digit that is not
    zero. *)
Lemma to_uint_head (p : positive) :
  Pos.to_uint p = Decimal.unorm (Pos.to_uint p)
  /\ Decimal.nzhead (Pos.to_uint p) = Pos.to_uint p.
Proof.
  pose proof (DecimalPos.Unsigned.to_of (Pos.to_uint p)) as H.
  rewrite DecimalPos.Unsigned.of_to in H. cbn [N.to_uint] in H.
  split; [exact H|].
  destruct (Decimal.nzhead (Pos.to_uint p)) eqn:E;
    try (rewrite H; unfold Decimal.unorm; now rewrite E).
  exfalso. apply unorm_0 in E. rewrite <- H in E.
  pose proof (DecimalPos.Unsigned.of_to p) as Hp. rewrite E in Hp.
  discriminate Hp.
Qed.

Lemma decimal_text_short (p : positive) :
  Z.pos p <= max_bigint ->
  (String.length (NilEmpty.string_of_uint (Pos.to_uint p)) <= 19)%nat.
Proof.
  intro Hmax. destruct (to_uint_head p) as [_ Hhead].
  pose proof (DecimalPos.Unsigned.of_to p) as Hof.
  pose proof (nzhead_nonzero (Pos.to_uint p)) as Hnz.
  destruct (Pos.to_uint p) as [|l|l|l|l|l|l|l|l|l|l] eqn:E;
    [cbn; lia | exfalso; apply (Hnz l); now rewrite Hhead | | | | | | | | |];
    cbn [Pos.of_uint] in Hof; injection Hof as Hof;
    cbn [NilEmpty.string_of_uint String.length];
    match type of Hof with
    | Pos.of_uint_acc l ?k = p =>
        pose proof (of_uint_acc_lower l k) as Hlow; rewrite Hof in Hlow
    end;
    destruct (Nat.leb_spec
                (String.length (NilEmpty.string_of_uint l)) 18) as [Hle|Hgt];
    try lia;
    exfalso;
    assert (10 ^ 19
            <= 10 ^ Z.of_nat (String.length (NilEmpty.string_of_uint l)))
      by (apply Z.pow_le_mono_r; lia);
    unfold max_bigint in Hmax; change (10 ^ 19) with 10000000000000000000 in *;
    lia.
Qed.

(** [int] reads the decimal text of a number in the range of a LIMIT as
    that number. *)
Lemma int_of_decimal_text (n : Z) :
  0 <= n <= max_bigint ->
  Py.int (Py.str_of_int n) = Some n /\ Py.str_of_int n <> "".
Proof.
  intros [Hpos Hmax]. destruct n as [|p|p]; [split; [reflexivity | discriminate]| |lia].
  unfold Py.str_of_int. cbn [Z.to_int NilZero.string_of_int].
  assert (Hnil : Pos.to_uint p <> Decimal.Nil)
    by apply DecimalPos.Unsigned.to_uint_nonnil.
  assert (Htext : NilZero.string_of_uint (Pos.to_uint p)
                  = NilEmpty.string_of_uint (Pos.to_uint p)).
  { unfold NilZero.string_of_uint. now destruct (Pos.to_uint p). }
  rewrite Htext.
  pose proof (all_digits_uint (Pos.to_uint p)) as Hall.
  pose proof (decimal_text_short p Hmax) as Hlen.
  pose proof (digits_of_uint (Pos.to_uint p) Hnil) as Hdigits.
  rewrite DecimalPos.Unsigned.of_to in Hdigits. cbn [Z.of_N] in Hdigits.
  split.
  - unfold Py.int. rewrite (int_literal_digits _ Hall).
    rewrite (count_digits_all _ Hall).
    assert ((Py.max_str_digits
             <? String.length (NilEmpty.string_of_uint (Pos.to_uint p)))%nat
            = false) as ->.
    { apply Nat.ltb_ge. unfold Py.max_str_digits. lia. }
    destruct (NilEmpty.string_of_uint (Pos.to_uint p)) as [|c r] eqn:E;
      [exact Hdigits|].
    cbn [all_digits] in Hall.
    destruct (Py.digit_of c) as [d|] eqn:Ec; [|discriminate].
    assert (c <> "-"%char /\ c <> "+"%char) as [Hm Hpl].
    { split; intro Hc; subst c; vm_compute in Ec; discriminate Ec. }
    destruct c as [[] [] [] [] [] [] [] []]; try exact Hdigits;
      congruence.
  - destruct (Pos.to_uint p); discriminate || congruence.
Qed.

(* ================================================================== *)
(** * Properties of the user serializers *)
(* ================================================================== *)

Section UserProperties.

Context `{C : Collaborators}.

(** C5. The [is_subscribed] flag of a projected author is true exactly
    when the requesting user is authenticated and the "following"
    relation has an edge from that user to the author; for an anonymous
    request it is false whatever the relation holds. *)
Theorem is_subscribed_iff_authenticated_follower
  (db : DB) (request : Request) (obj : User) :
  (get_is_subscribed db request obj = true <->
     exists user edge,
       request_user request = Authenticated user
       /\ In edge (tbl_follows db)
       /\ follow_user edge = user_id user
       /\ follow_author edge = user_id obj)
  /\ (request_user request = AnonymousUser ->
      forall db', get_is_subscribed db' request obj = false)
  /\ rep_is_subscribed (UserSubsribedSerializer db request obj)
     = get_is_subscribed db request obj.
Proof.
  unfold get_is_subscribed, following. repeat split.
  - destruct (request_user request) as [|user]; simpl; [discriminate|].
    intro H.
    destruct (Py.truthy_list _) eqn:E; [|discriminate].
    apply truthy_filter in E. destruct E as [edge [Hin Hu]].
    apply filter_In in Hin. destruct Hin as [Hin Ha].
    exists user, edge. repeat split; auto; now apply Z.eqb_eq.
  - intros [user [edge [Hu [Hin [Hf Ha]]]]]. rewrite Hu. simpl.
    assert (Py.truthy_list
              (filter (by_follower (Some (user_id user)))
                 (filter (fun f => follow_author f =? user_id obj)
                    (tbl_follows db))) = true) as ->; [|reflexivity].
    apply truthy_filter. exists edge. split.
    + apply filter_In. split; [assumption | now apply Z.eqb_eq].
    + simpl. now apply Z.eqb_eq.
  - intros Hanon db'. now rewrite Hanon.
Qed.

(** C3 (as amended). The [recipes] field holds the author's recipes, each
    projected by [RecipesSmallSerializer]: all of them when the
    "recipes_limit" parameter is missing or empty; the first N when it
    reads as an integer N from 0 to the largest LIMIT the database takes,
    as the decimal text of every such N does; and the call raises
    instead of answering when the parameter is not empty and does not
    read as an integer (a [ValueError]), or reads as a negative integer
    or as one beyond that range. *)
Theorem get_recipes_limit (db : DB) (request : Request) (user : User) :
  let limit := QueryDict_get "recipes_limit" (query_params request) in
  (limit = None \/ limit = Some "" ->
     get_recipes db request user
     = Ok (map RecipesSmallSerializer (recipes_of db user)))
  /\ (forall s n, limit = Some s -> s <> "" -> Py.int s = Some n ->
        0 <= n <= max_bigint ->
        get_recipes db request user
        = Ok (map RecipesSmallSerializer
                  (firstn (Z.to_nat n) (recipes_of db user))))
  /\ (forall n, 0 <= n <= max_bigint -> limit = Some (Py.str_of_int n) ->
        get_recipes db request user
        = Ok (map RecipesSmallSerializer
                  (firstn (Z.to_nat n) (recipes_of db user))))
  /\ (forall s, limit = Some s -> s <> "" -> Py.int s = None ->
        get_recipes db request user = Raise ValueError)
  /\ (forall s n, limit = Some s -> Py.int s = Some n ->
        n < 0 \/ max_bigint < n ->
        exists e, get_recipes db request user = Raise e).
Proof.
  cbv zeta.
  assert (Hfirst : forall s n,
            QueryDict_get "recipes_limit" (query_params request) = Some s ->
            s <> "" -> Py.int s = Some n -> 0 <= n <= max_bigint ->
            get_recipes db request user
            = Ok (map RecipesSmallSerializer
                      (firstn (Z.to_nat n) (recipes_of db user)))).
  { intros s n Hq Hs Hn [Hpos Hmax]. unfold get_recipes. rewrite Hq.
    apply truthy_str_iff in Hs. rewrite Hs, Hn. unfold slice_to.
    destruct (Z.ltb_spec n 0); [lia|].
    destruct (Z.ltb_spec max_bigint n); [lia | reflexivity]. }
  split; [|split; [exact Hfirst|split; [|split]]].
  - unfold get_recipes. intros [-> | ->]; reflexivity.
  - intros n Hn Hq. destruct (int_of_decimal_text n Hn) as [Hint Hne].
    now apply (Hfirst (Py.str_of_int n) n).
  - unfold get_recipes. intros s -> Hs Hn.
    apply truthy_str_iff in Hs. now rewrite Hs, Hn.
  - unfold get_recipes. intros s n -> Hn Hout.
    assert (Py.truthy_str s = true) as ->.
    { destruct s; [discriminate Hn | reflexivity]. }
    rewrite Hn. unfold slice_to.
    destruct (Z.ltb_spec n 0); [now eexists|].
    destruct (Z.ltb_spec max_bigint n); [now eexists | lia].
Qed.

End UserProperties.

(** C3, the claim as stated fails: with [?recipes_limit=abc] the parameter
    is present and is no integer, and the call raises [ValueError] where
    the claim has it return the author's two recipes.  The same holds of a
    digit preceded by the separator character FS, which [int] does not
    skip. *)
Lemma get_recipes_invalid_limit_raises :
  QueryDict_get "recipes_limit" [("recipes_limit", "abc")] = Some "abc"
  /\ Py.int "abc" = None
  /\ List.length (recipes_of Demo.db Demo.alice) = 2%nat
  /\ get_recipes (C := Demo.collaborators) Demo.db
       {| request_user := Authenticated Demo.bob;
          query_params := [("recipes_limit", "abc")] |}
       Demo.alice
     = Raise ValueError
  /\ Py.int (String (ascii_of_nat 28) "1") = None
  /\ get_recipes (C := Demo.collaborators) Demo.db
       {| request_user := Authenticated Demo.bob;
          query_params :=
            [("recipes_limit", String (ascii_of_nat 28) "1")] |}
       Demo.alice
     = Raise ValueError.
Proof. repeat split. Qed.

(** C3 (as amended), at a request: alice has two recipes, and with
    [?recipes_limit=1] the field holds the first. *)
Lemma get_recipes_limit_witness :
  Py.int "1" = Some 1
  /\ get_recipes (C := Demo.collaborators) Demo.db
       {| request_user := Authenticated Demo.bob;
          query_params := [("recipes_limit", "1")] |}
       Demo.alice
     = Ok [RecipesSmallSerializer (C := Demo.collaborators) Demo.pancakes].
Proof.
  split; [reflexivity|].
  destruct (get_recipes_limit (C := Demo.collaborators) Demo.db
              {| request_user := Authenticated Demo.bob;
                 query_params := [("recipes_limit", "1")] |}
              Demo.alice) as [_ [Hfirst _]].
  apply (Hfirst "1" 1); [reflexivity | discriminate | reflexivity|].
  unfold max_bigint. lia.
Defined.

(* ================================================================== *)
(** * Properties of the inbound recipe transform and of the field checks *)
(* ================================================================== *)

Lemma run_validators_validation_only (vs : list validator) (v : string) :
  validation_only (run_validators vs v).
Proof. unfold run_validators. now destruct (flat_map _ vs). Qed.



Lemma then_hook_validation_only {A} (o : outcome A) (hook : A -> outcome A) :
  validation_only o -> (forall a, validation_only (hook a)) ->
  validation_only (then_hook o hook).
Proof. destruct o as [a|e]; simpl; auto. Qed.


Section InboundProperties.

Context `{C : Collaborators} `{F : RecipeFields}.


(** When the value under "image" is false the decoding is not entered:
    the payload goes to the standard binding as it came. *)
Lemma to_internal_value_falsy_image (uuid4 : string) (db : DB)
  (request : Request) (partial : bool) (data : dict jval) :
  truthy (dict_get "image" data) = false ->
  RecipesSerializer_to_internal_value uuid4 db request partial data
  = super_to_internal_value db request partial data.
Proof.
  intro H. unfold RecipesSerializer_to_internal_value. now rewrite H.
Qed.

(** C10. A payload whose "image" key is present with an empty string or
    a null skips the image decoding, as a payload without the key does:
    the payload is handed unchanged to the standard field binding, and
    the drawn identifier plays no part in the result.  What decides is
    that the value is false, not that the key is missing. *)
Theorem falsy_image_skips_decoding (uuid4 : string) (db : DB)
  (request : Request) (partial : bool) (data : dict jval) :
  dict_get "image" data = None
  \/ dict_get "image" data = Some JNull
  \/ dict_get "image" data = Some (JStr "") ->
  RecipesSerializer_to_internal_value uuid4 db request partial data
  = super_to_internal_value db request partial data
  /\ forall other,
       RecipesSerializer_to_internal_value other db request partial data
       = RecipesSerializer_to_internal_value uuid4 db request partial data.
Proof.
  intro H.
  assert (Hf : truthy (dict_get "image" data) = false).
  { destruct H as [-> | [-> | ->]]; reflexivity. }
  split; [|intro other];
    now rewrite !to_internal_value_falsy_image by exact Hf.
Qed.


End InboundProperties.

(** C10, at a payload: the key "image" is present and holds the empty
    string. *)
Lemma falsy_image_skips_decoding_witness :
  dict_get "image" Demo.empty_image_payload = Some (JStr "")
  /\ RecipesSerializer_to_internal_value (C := Demo.collaborators)
       (F := Demo.fields) Demo.drawn_uuid Demo.db Demo.as_alice false
       Demo.empty_image_payload
     = super_to_internal_value (C := Demo.collaborators) (F := Demo.fields)
         Demo.db Demo.as_alice false Demo.empty_image_payload.
Proof.
  split; [reflexivity|].
  apply (falsy_image_skips_decoding (C := Demo.collaborators)
           (F := Demo.fields) Demo.drawn_uuid Demo.db Demo.as_alice false
           Demo.empty_image_payload).
  right. right. reflexivity.
Defined.



(* ================================================================== *)
(** * Properties of signup and of the password change *)
(* ================================================================== *)

Lemma CharField_validation_only (max_length : option nat)
  (extra : list validator) (data : option jval) :
  validation_only (CharField max_length extra data).
Proof.
  destruct data as [[| | n | s | | |]|]; simpl; auto.
  - apply run_validators_validation_only.
  - destruct (Py.truthy_str _); simpl; auto.
    apply run_validators_validation_only.
Qed.

Section SignupProperties.

Context `{C : Collaborators}.

Lemma validate_email_taken (db : DB) (email : string) :
  (exists u, In u (tbl_users db) /\ user_email u = email) ->
  validate_email db email
  = Raise (ValidationError
             (Messages ["Пользователь с такой почтой уже существует."])).
Proof.
  intros [u [Hin He]]. unfold validate_email.
  assert (existsb (fun u0 => (user_email u0 =? email)%string) (tbl_users db)
          = true) as ->; [|reflexivity].
  apply existsb_exists. exists u. split; [assumption|].
  now apply String.eqb_eq.
Qed.

Lemma validate_username_taken (db : DB) (username : string) :
  (exists u, In u (tbl_users db) /\ user_username u = username) ->
  validate_username db username
  = Raise (ValidationError (Messages ["Такой пользователь уже существует."])).
Proof.
  intros [u [Hin He]]. unfold validate_username.
  assert (existsb (fun u0 => (user_username u0 =? username)%string)
                  (tbl_users db) = true) as ->; [|reflexivity].
  apply existsb_exists. exists u. split; [assumption|].
  now apply String.eqb_eq.
Qed.

(** The loop of [UserSerializer] over five fields that raise validation
    errors only: an error of the e-mail or of the username field is in the
    serializer's error under the field's name. *)
Lemma user_fields_errors (o1 o2 o3 o4 o5 : outcome string) :
  validation_only o1 -> validation_only o2 -> validation_only o3 ->
  validation_only o4 -> validation_only o5 ->
  let result :=
    bound (Bound Build_UserData <&> ("email", o1) <&> ("username", o2)
           <&> ("first_name", o3) <&> ("last_name", o4)
           <&> ("password", o5)) in
  (forall d, o1 = Raise (ValidationError d) ->
     exists errs, result = Raise (ValidationError (FieldErrors errs))
                  /\ dict_get "email" errs = Some d)
  /\ (forall d, o2 = Raise (ValidationError d) ->
        exists errs, result = Raise (ValidationError (FieldErrors errs))
                     /\ dict_get "username" errs = Some d).
Proof.
  intros H1 H2 H3 H4 H5.
  destruct o1 as [a1|[]]; try contradiction;
    destruct o2 as [a2|[]]; try contradiction;
    destruct o3 as [a3|[]]; try contradiction;
    destruct o4 as [a4|[]]; try contradiction;
    destruct o5 as [a5|[]]; try contradiction;
    cbv zeta; split; intros det E; try discriminate E;
    injection E as ->; eexists; split; reflexivity.
Qed.

(** A payload that validation refuses ends [signup] before any write. *)
Lemma signup_refused_without_write (db : DB) (data : dict jval) (e : exn) :
  UserSerializer_run_validation db data = Raise e ->
  signup data (start db) = (Raise e, start db).
Proof.
  intro H. unfold signup, bind, query, lift. cbn [now start]. now rewrite H.
Qed.

(** C7. A signup whose e-mail or username, as its field binds it, is
    that of a persisted user is refused with the serializer's validation
    error, which carries the uniqueness message of the field, and nothing
    is written: the tables are as before and no state was committed. *)
Theorem duplicate_signup_is_refused (db : DB) (data : dict jval) :
  (exists email,
      EmailField (Some 254%nat) (dict_get "email" data) = Ok email
      /\ exists u, In u (tbl_users db) /\ user_email u = email)
  \/ (exists username,
         CharField (Some 150%nat) [] (dict_get "username" data) = Ok username
         /\ exists u, In u (tbl_users db) /\ user_username u = username) ->
  exists errs,
    signup data (start db)
    = (Raise (ValidationError (FieldErrors errs)), start db)
    /\ now (snd (signup data (start db))) = db
    /\ committed (snd (signup data (start db))) = []
    /\ (forall email,
          EmailField (Some 254%nat) (dict_get "email" data) = Ok email ->
          (exists u, In u (tbl_users db) /\ user_email u = email) ->
          dict_get "email" errs
          = Some (Messages ["Пользователь с такой почтой уже существует."]))
    /\ (forall username,
          CharField (Some 150%nat) [] (dict_get "username" data) = Ok username ->
          (exists u, In u (tbl_users db) /\ user_username u = username) ->
          dict_get "username" errs
          = Some (Messages ["Такой пользователь уже существует."])).
Proof.
  intro Hdup.
  pose proof (user_fields_errors
    (then_hook (EmailField (Some 254%nat) (dict_get "email" data))
               (validate_email db))
    (then_hook (CharField (Some 150%nat) [] (dict_get "username" data))
               (validate_username db))
    (CharField (Some 150%nat) [] (dict_get "first_name" data))
    (CharField (Some 150%nat) [] (dict_get "last_name" data))
    (CharField (Some 150%nat) [] (dict_get "password" data))) as Hloop.
  cbv zeta in Hloop.
  destruct Hloop as [Hemail Huser];
    try apply CharField_validation_only;
    try (apply then_hook_validation_only;
         [apply CharField_validation_only|];
         intro a; unfold validate_email, validate_username;
         now destruct (existsb _ _)).
  assert (Hrefused : exists errs,
    UserSerializer_run_validation db data
    = Raise (ValidationError (FieldErrors errs))).
  { destruct Hdup as [[email [Hf Hu]] | [username [Hf Hu]]].
    - destruct (Hemail (Messages
        ["Пользователь с такой почтой уже существует."])) as [errs [E _]].
      + rewrite Hf. cbn [then_hook]. now apply validate_email_taken.
      + exists errs. unfold UserSerializer_run_validation,
          UserSerializer_to_internal_value. now rewrite E.
    - destruct (Huser (Messages ["Такой пользователь уже существует."]))
        as [errs [E _]].
      + rewrite Hf. cbn [then_hook]. now apply validate_username_taken.
      + exists errs. unfold UserSerializer_run_validation,
          UserSerializer_to_internal_value. now rewrite E. }
  destruct Hrefused as [errs Herrs]. exists errs.
  rewrite (signup_refused_without_write _ _ _ Herrs).
  repeat split.
  - intros email Hf Hu.
    destruct (Hemail (Messages
      ["Пользователь с такой почтой уже существует."])) as [errs' [E Hget]].
    + rewrite Hf. cbn [then_hook]. now apply validate_email_taken.
    + unfold UserSerializer_run_validation,
        UserSerializer_to_internal_value in Herrs.
      rewrite E in Herrs. cbn [run_validation] in Herrs.
      now injection Herrs as <-.
  - intros username Hf Hu.
    destruct (Huser (Messages ["Такой пользователь уже существует."]))
      as [errs' [E Hget]].
    + rewrite Hf. cbn [then_hook]. now apply validate_username_taken.
    + unfold UserSerializer_run_validation,
        UserSerializer_to_internal_value in Herrs.
      rewrite E in Herrs. cbn [run_validation] in Herrs.
      now injection Herrs as <-.
Qed.

End SignupProperties.

(** C7, at a payload: the e-mail is the one alice signed up with. *)
Lemma duplicate_signup_is_refused_witness :
  exists errs,
    signup (C := Demo.collaborators)
      (Demo.signup_payload "alice@example.com" "carol") (start Demo.db)
    = (Raise (ValidationError (FieldErrors errs)), start Demo.db)
    /\ dict_get "email" errs
       = Some (Messages ["Пользователь с такой почтой уже существует."]).
Proof.
  destruct (duplicate_signup_is_refused (C := Demo.collaborators) Demo.db
              (Demo.signup_payload "alice@example.com" "carol"))
    as [errs [Hrun [_ [_ [Hemail _]]]]].
  - left. exists "alice@example.com". split; [reflexivity|].
    exists Demo.alice. split; [left; reflexivity | reflexivity].
  - exists errs. split; [exact Hrun|].
    apply (Hemail "alice@example.com"); [reflexivity|].
    exists Demo.alice. split; [left; reflexivity | reflexivity].
Defined.

Section PasswordProperties.

Context `{C : Collaborators}.

(** C6 (as amended). For a password-change request whose two fields pass
    their declared rules (present, not null, not blank, the new password
    of at most 150 characters), the serializer raises a validation error
    exactly when one of three checks fails: the new password satisfies the
    strength policy for the acting user, the current password matches the
    stored hash, the new password differs from the current one.  A request
    that passes the three is accepted.  When a field-level check fails the
    error names fields only: the cross-field comparison runs only after
    both field-level checks have passed. *)
Theorem password_change_checks (user : User) (data : dict jval)
  (new current : string) :
  CharField (Some 150%nat) [] (dict_get "new_password" data) = Ok new ->
  CharField None [] (dict_get "current_password" data) = Ok current ->
  let passes :=
    validate_password new user = []
    /\ check_password current (user_password user) = true
    /\ current <> new in
  let result := SetPasswordSerializer_run_validation user data in
  (result = Ok {| new_password := new; current_password := current |}
   <-> passes)
  /\ (is_validation_error result = true <-> ~ passes)
  /\ (validate_password new user <> []
      \/ check_password current (user_password user) = false ->
      exists errs,
        result = Raise (ValidationError (FieldErrors errs))
        /\ dict_get "non_field_errors" errs = None)
  /\ (validate_password new user = [] ->
      check_password current (user_password user) = true ->
      current = new ->
      result
      = Raise (ValidationError (FieldErrors
          [("non_field_errors", Messages ["Пароли не должны совпадать."])]))).
Proof.
  intros Hnew Hcur. cbv zeta.
  unfold SetPasswordSerializer_run_validation,
    SetPasswordSerializer_to_internal_value, bind_pair.
  cbn [fst snd]. rewrite Hnew, Hcur. cbn [then_hook].
  unfold validate_new_password, validate_current_password,
    SetPasswordSerializer_validate.
  destruct (validate_password new user) as [|m ms] eqn:Hpol;
    destruct (check_password current (user_password user)) eqn:Hchk;
    cbn [negb bind_field bound run_validation fail
         current_password new_password is_validation_error
         as_serializer_error];
    try destruct (String.eqb_spec current new) as [Heq|Hne];
    cbn [run_validation as_serializer_error is_validation_error];
    repeat split;
    try solve [ intros; discriminate
              | intros; congruence
              | intros [? [? ?]]; congruence
              | intros [? | ?]; congruence
              | intros [? | ?]; eexists; split; reflexivity
              | intro H; exfalso; apply H; repeat split; congruence
              | intros _ [? [? ?]]; congruence
              | intros; reflexivity
              | intros; assumption ].
Qed.

End PasswordProperties.

(** C6, the claim as stated fails: the new password of 151 characters
    satisfies the policy, the current password matches the stored hash and
    the two differ, and the request is refused all the same, by the length
    bound the field declares. *)
Lemma long_new_password_is_refused :
  validate_password (Collaborators := Demo.collaborators)
    Demo.long_password Demo.alice = []
  /\ check_password (Collaborators := Demo.collaborators)
       "correct horse" (user_password Demo.alice) = true
  /\ "correct horse" <> Demo.long_password
  /\ SetPasswordSerializer_run_validation (C := Demo.collaborators)
       Demo.alice
       [("new_password", JStr Demo.long_password);
        ("current_password", JStr "correct horse")]
     = Raise (ValidationError (FieldErrors
         [("new_password",
           Messages ["Ensure this field has no more than 150 characters."])])).
Proof.
  split; [reflexivity|]. split; [reflexivity|]. split.
  - vm_compute. discriminate.
  - vm_compute. reflexivity.
Qed.

(** C6 (as amended), at a request: alice changes her password to a
    distinct one of twelve characters. *)
Lemma password_change_checks_witness :
  SetPasswordSerializer_run_validation (C := Demo.collaborators) Demo.alice
    [("new_password", JStr "new-secret-1");
     ("current_password", JStr "correct horse")]
  = Ok {| new_password := "new-secret-1";
          current_password := "correct horse" |}.
Proof.
  destruct (password_change_checks (C := Demo.collaborators) Demo.alice
              [("new_password", JStr "new-secret-1");
               ("current_password", JStr "correct horse")]
              "new-secret-1" "correct horse" eq_refl eq_refl)
    as [[_ Haccept] _].
  apply Haccept. split; [reflexivity|]. split; [reflexivity | discriminate].
Defined.

(* ================================================================== *)
(** * Properties of user creation *)
(* ================================================================== *)

Section CreateUserProperties.

Context `{C : Collaborators}.

Lemma upsert_last {R} (pk : R -> Z) (x y : R) (rows : list R) :
  pk y = pk x ->
  upsert pk x (rows ++ [y])
  = map (fun r => if pk r =? pk x then x else r) rows ++ [x].
Proof.
  intro H. unfold upsert.
  rewrite existsb_app. cbn [existsb]. rewrite H, Z.eqb_refl, orb_true_r.
  rewrite map_app. cbn [map]. now rewrite H, Z.eqb_refl.
Qed.

Lemma map_fresh_id {R} (pk : R -> Z) (x : R) (rows : list R) :
  (forall r, In r rows -> pk r <> pk x) ->
  map (fun r => if pk r =? pk x then x else r) rows = rows.
Proof.
  intro H. induction rows as [|r rows IH]; [reflexivity|]. cbn [map].
  destruct (Z.eqb_spec (pk r) (pk x)) as [E|_].
  - exfalso. apply (H r); [now left | exact E].
  - rewrite IH; [reflexivity|]. intros r' Hr'. apply H. now right.
Qed.

(** C1 (as amended). [create] makes two writes.  After the first the
    tables hold the new record with the password as it was given, in plain
    text; the second replaces that record by one whose password is
    [make_password] of it.  So the record that is persisted when [create]
    returns holds the hash, and the state committed in between holds the
    plain text. *)
Theorem create_persists_plain_text_then_hash (db : DB)
  (validated_data : UserData) :
  let raw := inserted_user db validated_data in
  let hashed := set_password raw (vd_password validated_data) in
  exists db1 db2,
    UserSerializer_create validated_data (start db)
    = (Ok hashed, {| now := db2; committed := [db1; db2] |})
    /\ tbl_users db1 = tbl_users db ++ [raw]
    /\ user_password raw = vd_password validated_data
    /\ In hashed (tbl_users db2)
    /\ user_password hashed = make_password (vd_password validated_data)
    /\ ((forall u, In u (tbl_users db) -> user_id u <> seq_user db) ->
        tbl_users db2 = tbl_users db ++ [hashed]).
Proof.
  cbv zeta.
  eexists. eexists. split; [|split; [|split; [|split; [|split]]]].
  - unfold UserSerializer_create, User_objects_create, User_save,
      bind, query, write, ret, start. cbn [now committed app].
    reflexivity.
  - reflexivity.
  - reflexivity.
  - cbn [set_users tbl_users set_seq_user].
    rewrite upsert_last by reflexivity.
    apply in_or_app. right. now left.
  - reflexivity.
  - intro Hfresh. cbn [set_users tbl_users set_seq_user].
    rewrite upsert_last by reflexivity.
    now rewrite map_fresh_id.
Qed.

End CreateUserProperties.

(** C1, the claim as stated fails: signing up with the password
    "hunter2hunter2" commits a state in which the new record's password
    field is that very text, which is not its hash. *)
Lemma create_commits_plain_text_password :
  exists db1 u,
    In db1 (committed (snd (signup (C := Demo.collaborators)
                              (Demo.signup_payload "carol@example.com" "carol")
                              (start Demo.db))))
    /\ In u (tbl_users db1)
    /\ user_username u = "carol"
    /\ user_password u = "hunter2hunter2"
    /\ make_password (Collaborators := Demo.collaborators) "hunter2hunter2"
       = "pbkdf2_sha256$hunter2hunter2".
Proof.
  eexists. eexists. split; [|split; [|split; [|split]]].
  - vm_compute. left. reflexivity.
  - cbn. right. right. left. reflexivity.
  - reflexivity.
  - reflexivity.
  - reflexivity.
Qed.

(* ================================================================== *)
(** * Properties of recipe creation, update and read *)
(* ================================================================== *)

Lemma bind_ok {A B} (c : M A) (k : A -> M B) (st st' : Store) (a : A) :
  c st = (Ok a, st') -> bind c k st = k a st'.
Proof. intro H. unfold bind. now rewrite H. Qed.

Lemma filter_all {A} (p : A -> bool) (l : list A) :
  (forall x, In x l -> p x = true) -> filter p l = l.
Proof.
  intro H. induction l as [|x l IH]; [reflexivity|]. simpl.
  rewrite (H x) by now left. f_equal. apply IH. intros y Hy. apply H. now right.
Qed.

Lemma filter_none {A} (p : A -> bool) (l : list A) :
  (forall x, In x l -> p x = false) -> filter p l = [].
Proof.
  intro H. induction l as [|x l IH]; [reflexivity|]. simpl.
  rewrite (H x) by now left. apply IH. intros y Hy. apply H. now right.
Qed.

Lemma filter_filter {A} (p q : A -> bool) (l : list A) :
  filter p (filter q l) = filter (fun x => q x && p x) l.
Proof.
  induction l as [|x l IH]; [reflexivity|]. simpl.
  destruct (q x); simpl; [destruct (p x)|]; now rewrite IH.
Qed.

Lemma delete_lines_run (rows : list RecipesIngridients) (st : Store) :
  exists log,
    for_each rows line_delete st
    = (Ok tt,
       {| now := set_lines
                   (filter (fun l => negb (existsb (fun r => line_id l =? line_id r) rows)))
                   (now st);
          committed := log |}).
Proof.
  revert st. induction rows as [|r rows IH]; intro st.
  - exists (committed st). cbn [for_each]. unfold ret.
    destruct st as [db log]. cbn [now committed]. f_equal. f_equal.
    destruct db. unfold set_lines. cbn. f_equal.
    symmetry. apply filter_all. reflexivity.
  - cbn [for_each]. unfold bind at 1. unfold line_delete at 1, write.
    destruct (IH {| now := set_lines (filter (fun l => negb (line_id l =? line_id r))) (now st);
                    committed := committed st ++ [set_lines (filter (fun l => negb (line_id l =? line_id r))) (now st)] |})
      as [log Hlog].
    exists log. rewrite Hlog. cbn [now]. f_equal. f_equal.
    destruct (now st). unfold set_lines. cbn. f_equal.
    rewrite filter_filter. apply filter_ext. intro l. cbn [existsb].
    now rewrite negb_orb.
Qed.

Lemma find_present {A} (p : A -> bool) (l : list A) (x : A) :
  In x l -> p x = true -> exists y, find p l = Some y /\ p y = true.
Proof.
  intros Hin Hp. destruct (find p l) as [y|] eqn:E.
  - exists y. split; [reflexivity|]. now apply find_some in E.
  - exfalso. apply (find_none _ _ E) in Hin. congruence.
Qed.

Section RecipeProperties.

Context `{C : Collaborators}.

Lemma add_one_run (recipe : Recipes) (e : IngredientEntry) (st : Store)
  (i : Ingredients) :
  find (fun i => ingredient_id i =? ingredient_id (entry_id e))
       (tbl_ingredients (now st)) = Some i ->
  (current_ingredient <-
     query (fun db =>
              find (fun i => ingredient_id i =? ingredient_id (entry_id e))
                   (tbl_ingredients db)) ;;
   RecipesIngridients_objects_create current_ingredient recipe
                                     (entry_amount e) ;;;
   ret tt) st
  = (Ok tt,
     let db' :=
       set_seq_line (seq_line (now st) + 1)
         (set_lines
            (fun rows => rows ++ [{| line_id := seq_line (now st);
                                     line_recipe := recipe_id recipe;
                                     line_ingredient := ingredient_id i;
                                     line_amount := entry_amount e |}])
            (now st)) in
     {| now := db'; committed := committed st ++ [db'] |}).
Proof.
  intro H. unfold bind, query. rewrite H. reflexivity.
Qed.

Lemma add_ingredients_run (recipe : Recipes) (es : list IngredientEntry)
  (st : Store) :
  Forall (fun e => In (entry_id e) (tbl_ingredients (now st))) es ->
  exists log,
    add_ingredients recipe es st
    = (Ok tt,
       {| now := set_seq_line (seq_line (now st) + Z.of_nat (List.length es))
                   (set_lines
                      (fun rows => rows ++ numbered_lines (recipe_id recipe)
                                             (seq_line (now st)) es)
                      (now st));
          committed := log |}).
Proof.
  revert st. induction es as [|e es IH]; intros st Hall.
  - exists (committed st). unfold add_ingredients. cbn [for_each]. unfold ret.
    destruct st as [db log]. cbn [now committed]. f_equal. f_equal.
    destruct db. unfold set_lines, set_seq_line. cbn. f_equal.
    + now rewrite List.app_nil_r.
    + lia.
  - inversion Hall as [|? ? He Hes]; subst.
    destruct (find_present
                (fun i => ingredient_id i =? ingredient_id (entry_id e))
                (tbl_ingredients (now st)) (entry_id e) He (Z.eqb_refl _))
      as [i [Hfind Hi]].
    apply Z.eqb_eq in Hi.
    unfold add_ingredients in *. cbn [for_each].
    rewrite (bind_ok _ _ _ _ _ (add_one_run recipe e st i Hfind)).
    cbv zeta.
    match goal with |- context [for_each es ?b ?s] => destruct (IH s) as [log Hlog] end.
    { cbn [now]. destruct (now st). exact Hes. }
    exists log. rewrite Hlog. cbn [now]. f_equal. f_equal.
    destruct (now st). unfold set_lines, set_seq_line. cbn. rewrite Hi. f_equal.
    + now rewrite <- app_assoc.
    + lia.
Qed.

Lemma NoDup_map_eq {A B} (f : A -> B) (l : list A) (a b : A) :
  NoDup (map f l) -> In a l -> In b l -> f a = f b -> a = b.
Proof.
  induction l as [|x l IH]; [contradiction|].
  cbn [map]. intros Hnd Ha Hb Hf. inversion Hnd as [|? ? Hx Hl]; subst.
  destruct Ha as [-> | Ha]; destruct Hb as [-> | Hb]; auto.
  - exfalso. apply Hx. rewrite Hf. now apply in_map.
  - exfalso. apply Hx. rewrite <- Hf. now apply in_map.
Qed.


Lemma numbered_lines_recipe (rid pk : Z) (es : list IngredientEntry) :
  forall l, In l (numbered_lines rid pk es) ->
            line_recipe l = rid /\ pk <= line_id l.
Proof.
  revert pk. induction es as [|e es IH]; intros pk l; [contradiction|].
  cbn [numbered_lines]. intros [<- | H]; cbn; [split; [reflexivity | lia]|].
  apply IH in H. split; [apply H | lia].
Qed.


Lemma rows_after_set_spec (rid : Z) (ids : list Z) (rows : list RecipeTag)
  (t : Z) :
  existsb (fun rt => (rt_recipe rt =? rid) && (rt_tag rt =? t))
          (rows_after_set rid ids rows)
  = existsb (Z.eqb t) ids.
Proof.
  apply eq_true_iff_eq. rewrite !existsb_exists. unfold rows_after_set.
  split.
  - intros [rt [Hin HP]]. apply andb_true_iff in HP. destruct HP as [Hr Ht].
    apply Z.eqb_eq in Ht. apply in_app_or in Hin. destruct Hin as [Hin | Hin].
    + apply filter_In in Hin. destruct Hin as [_ Hcond].
      rewrite Hr in Hcond. cbn [negb orb] in Hcond.
      apply existsb_exists in Hcond. destruct Hcond as [x [Hx Hxt]].
      exists x. split; [assumption|]. now rewrite <- Ht.
    + apply in_map_iff in Hin. destruct Hin as [t' [<- Hin]].
      apply filter_In in Hin. destruct Hin as [Hin _].
      apply nodup_In in Hin. exists t'. split; [assumption|].
      cbn in Ht. subst. apply Z.eqb_refl.
  - intros [x [Hx Hxt]]. apply Z.eqb_eq in Hxt. subst x.
    match goal with |- context [filter (fun t0 => negb (existsb (Z.eqb t0) ?o)) _] =>
      set (old := o) end.
    destruct (existsb (Z.eqb t) old) eqn:Eold.
    + apply existsb_exists in Eold. destruct Eold as [x [Hxo Hxt]].
      apply Z.eqb_eq in Hxt. subst x. subst old.
      apply in_map_iff in Hxo. destruct Hxo as [rt [Ht Hrt]].
      apply filter_In in Hrt. destruct Hrt as [Hrt Hr].
      exists rt. split; [apply in_or_app; now left|].
      now rewrite Hr, Ht, Z.eqb_refl.
    + exists {| rt_recipe := rid; rt_tag := t |}. split.
      * apply in_or_app. right. apply in_map. apply filter_In.
        split; [now apply nodup_In | now rewrite Eold].
      * cbn. now rewrite !Z.eqb_refl.
Qed.

Lemma read_numbered_lines (db : DB) (rid pk : Z) (es : list IngredientEntry) :
  NoDup (map ingredient_id (tbl_ingredients db)) ->
  Forall (fun e => In (entry_id e) (tbl_ingredients db)) es ->
  map_outcome (IngredientsRecipeSerializer db) (numbered_lines rid pk es)
  = Ok (map entry_rep es).
Proof.
  intros Hnd Hall. revert pk. induction es as [|e es IH]; intro pk;
    [reflexivity|].
  inversion Hall as [|? ? He Hes]; subst.
  cbn [numbered_lines map_outcome map].
  unfold IngredientsRecipeSerializer at 1, line_ingredient_row.
  cbn [line_ingredient line_amount].
  destruct (find_present
              (fun i => ingredient_id i =? ingredient_id (entry_id e))
              (tbl_ingredients db) (entry_id e) He (Z.eqb_refl _))
    as [i [Hfind Hi]].
  rewrite Hfind. apply Z.eqb_eq in Hi.
  assert (i = entry_id e) as ->.
  { apply (NoDup_map_eq ingredient_id (tbl_ingredients db)); auto.
    now apply find_some in Hfind. }
  now rewrite (IH Hes).
Qed.

Lemma TagsSerializer_inj (t t' : Tags) :
  TagsSerializer t = TagsSerializer t' -> t = t'.
Proof.
  destruct t, t'. unfold TagsSerializer. cbn. now intros [= -> -> -> ->].
Qed.

Lemma NoDup_map_injective {A B} (f : A -> B) (l : list A) :
  (forall a b, f a = f b -> a = b) -> NoDup l -> NoDup (map f l).
Proof.
  intros Hinj Hnd. induction Hnd as [|x l Hx Hl IH]; cbn; constructor; auto.
  intro H. apply in_map_iff in H. destruct H as [y [Hf Hy]].
  apply Hinj in Hf. now subst.
Qed.

Lemma NoDup_of_map {A B} (f : A -> B) (l : list A) :
  NoDup (map f l) -> NoDup l.
Proof.
  induction l as [|x l IH]; cbn; intro H; constructor;
    inversion H; subst; auto.
  intro Hx. now apply (in_map f) in Hx.
Qed.

(** The tags a read shows after [tags.set]. *)
Lemma read_tags_after_set (tags_table : list Tags) (ts : list Tags) :
  NoDup (map tag_id tags_table) ->
  Forall (fun t => In t tags_table) ts ->
  let shown :=
    map TagsSerializer
        (filter (fun t => existsb (Z.eqb (tag_id t)) (map tag_id ts))
                tags_table) in
  (forall x, In x shown <-> In x (map TagsSerializer ts))
  /\ NoDup shown
  /\ (NoDup ts -> List.length shown = List.length ts).
Proof.
  intros Hnd Hall. cbv zeta.
  assert (Hsame : forall x,
    In x (map TagsSerializer
            (filter (fun t => existsb (Z.eqb (tag_id t)) (map tag_id ts))
                    tags_table))
    <-> In x (map TagsSerializer ts)).
  { intro x. rewrite !in_map_iff. split.
    - intros [t [<- Ht]]. apply filter_In in Ht. destruct Ht as [Ht Hid].
      apply existsb_exists in Hid. destruct Hid as [id [Hid Heq]].
      apply Z.eqb_eq in Heq. apply in_map_iff in Hid.
      destruct Hid as [t' [Ht' Hin']]. exists t'. split; [|assumption].
      f_equal. apply (NoDup_map_eq tag_id tags_table); auto.
      + rewrite Forall_forall in Hall. now apply Hall.
      + congruence.
    - intros [t [<- Ht]]. exists t. split; [reflexivity|].
      apply filter_In. split.
      + rewrite Forall_forall in Hall. now apply Hall.
      + apply existsb_exists. exists (tag_id t).
        split; [now apply in_map | apply Z.eqb_refl]. }
  assert (Hshown : NoDup
    (map TagsSerializer
       (filter (fun t => existsb (Z.eqb (tag_id t)) (map tag_id ts))
               tags_table))).
  { apply NoDup_map_injective; [apply TagsSerializer_inj|].
    apply NoDup_filter. now apply NoDup_of_map in Hnd. }
  split; [exact Hsame|]. split; [exact Hshown|].
  intro Hts.
  rewrite <- (length_map TagsSerializer ts).
  apply Permutation_length. apply NoDup_Permutation; auto.
  apply NoDup_map_injective; [apply TagsSerializer_inj | assumption].
Qed.



Lemma create_run (db : DB) (validated_data : RecipeData)
  (es : list IngredientEntry) (ts : list Tags) (author : User) (time : Z) :
  vd_ingredients validated_data = Some es ->
  vd_tags validated_data = Some ts ->
  vd_author validated_data = Some (CurrentUser (Authenticated author)) ->
  vd_cooking_time validated_data = Some time ->
  Forall (fun e => In (entry_id e) (tbl_ingredients db)) es ->
  let recipe :=
    {| recipe_id := seq_recipe db;
       recipe_author := user_id author;
       recipe_name :=
         match vd_name validated_data with Some s => s | None => "" end;
       recipe_image :=
         match vd_image validated_data with
         | Some f => storage_save f
         | None => ""
         end;
       recipe_text :=
         match vd_text validated_data with Some s => s | None => "" end;
       recipe_cooking_time := time |} in
  exists st,
    RecipesSerializer_create validated_data (start db) = (Ok recipe, st)
    /\ tbl_lines (now st)
       = tbl_lines db ++ numbered_lines (seq_recipe db) (seq_line db) es
    /\ tbl_recipe_tags (now st)
       = rows_after_set (seq_recipe db) (map tag_id ts) (tbl_recipe_tags db)
    /\ tbl_ingredients (now st) = tbl_ingredients db
    /\ tbl_tags (now st) = tbl_tags db
    /\ tbl_users (now st) = tbl_users db.
Proof.
  intros Hes Hts Hauthor Htime Hall. cbv zeta.
  unfold RecipesSerializer_create. rewrite Hes, Hts.
  unfold Recipes_objects_create. rewrite Hauthor, Htime.
  unfold tags_set, bind, query, write, ret.
  cbn [now committed start recipe_id].
  match goal with |- context [add_ingredients ?r es ?s] =>
    destruct (add_ingredients_run r es s) as [log Hadd] end.
  { exact Hall. }
  rewrite Hadd. eexists. split; [reflexivity|]. cbn. repeat split.
Qed.

End RecipeProperties.

Lemma demo_db_wf : db_wf Demo.db.
Proof.
  constructor; cbn.
  - repeat constructor; cbn; intuition lia.
  - intros l [<- | [<- | [<- | []]]]; cbn; lia.
  - intros l [<- | [<- | [<- | []]]]; cbn; lia.
  - repeat constructor; cbn; intuition lia.
  - repeat constructor; cbn; intuition lia.
Qed.


(* ================================================================== *)
(** * Further properties: flags, recipe lists, signup *)
(* ================================================================== *)

Lemma edges_of_truthy (rows : list UserRecipe) (user : RequestUser)
  (obj : Recipes) :
  Py.truthy_list (edges_of rows user obj) = true <->
  exists u edge,
    user = Authenticated u /\ In edge rows
    /\ edge_user edge = user_id u /\ edge_recipe edge = recipe_id obj.
Proof.
  unfold edges_of. destruct user as [|u]; cbn [request_user_id].
  - split; [discriminate | intros [u [e [H _]]]; discriminate].
  - rewrite truthy_filter. split.
    + intros [e [Hin Hp]]. apply filter_In in Hin. destruct Hin as [Hin _].
      apply andb_true_iff in Hp. destruct Hp as [Hu Hr].
      exists u, e. repeat split; auto; now apply Z.eqb_eq.
    + intros [u' [e [[= <-] [Hin [Hu Hr]]]]]. exists e. split.
      * apply filter_In. split; [assumption | now apply Z.eqb_eq].
      * apply andb_true_iff. split; now apply Z.eqb_eq.
Qed.

(** X1. The flags [is_favorited] and [is_in_shopping_cart] of a recipe are
    true exactly when the requesting user is authenticated and the
    respective relation holds an edge between that user and the recipe;
    both are false for an anonymous request. *)
Theorem favorite_and_cart_flags (db : DB) (request : Request)
  (obj : Recipes) :
  (get_is_favorited db request obj = true <->
     exists u edge,
       request_user request = Authenticated u /\ In edge (tbl_favorites db)
       /\ edge_user edge = user_id u /\ edge_recipe edge = recipe_id obj)
  /\ (get_is_in_shopping_cart db request obj = true <->
        exists u edge,
          request_user request = Authenticated u
          /\ In edge (tbl_shoppingcarts db)
          /\ edge_user edge = user_id u /\ edge_recipe edge = recipe_id obj)
  /\ (request_user request = AnonymousUser ->
      get_is_favorited db request obj = false
      /\ get_is_in_shopping_cart db request obj = false).
Proof.
  unfold get_is_favorited, get_is_in_shopping_cart.
  split; [|split].
  - rewrite <- edges_of_truthy.
    destruct (request_user request); cbn [is_authenticated andb];
      [split; [discriminate | now cbn] |].
    destruct (Py.truthy_list _); split; auto.
  - rewrite <- edges_of_truthy.
    destruct (request_user request); cbn [is_authenticated andb];
      [split; [discriminate | now cbn] |].
    destruct (Py.truthy_list _); split; auto.
  - intros ->. split; reflexivity.
Qed.

Section MoreUserProperties.

Context `{C : Collaborators}.

(** X2. Whatever the limit, the [recipes] field is a prefix of the
    author's recipes in projection, so it never holds more entries than
    [recipes_count] reports and every entry is a recipe of that author;
    with a limit that reads as N the field has min(N, count) entries. *)
Theorem recipes_field_within_count (db : DB) (request : Request)
  (user : User) (recipes : list RecipeSmallRep) :
  get_recipes db request user = Ok recipes ->
  (exists k, recipes
             = map RecipesSmallSerializer (firstn k (recipes_of db user)))
  /\ Z.of_nat (List.length recipes) <= recipes_count db user
  /\ (forall r, In r recipes ->
        exists row, In row (tbl_recipes db)
                    /\ recipe_author row = user_id user
                    /\ r = RecipesSmallSerializer row)
  /\ (forall s n,
        QueryDict_get "recipes_limit" (query_params request) = Some s ->
        Py.int s = Some n ->
        Z.of_nat (List.length recipes) = Z.min n (recipes_count db user)).
Proof.
  intro Hget.
  assert (Hk : exists k,
    recipes = map RecipesSmallSerializer (firstn k (recipes_of db user))
    /\ forall s n,
         QueryDict_get "recipes_limit" (query_params request) = Some s ->
         Py.int s = Some n -> 0 <= n /\ k = Z.to_nat n).
  { unfold get_recipes in Hget.
    destruct (QueryDict_get "recipes_limit" (query_params request))
      as [s|] eqn:Hq.
    - destruct (Py.truthy_str s) eqn:Hs.
      + destruct (Py.int s) as [n|] eqn:Hn; [|discriminate].
        unfold slice_to in Hget. destruct (Z.ltb_spec n 0); [discriminate|].
        destruct (Z.ltb_spec max_bigint n); [discriminate|].
        injection Hget as <-. exists (Z.to_nat n). split; [reflexivity|].
        intros s' n' [= <-] Hn'. rewrite Hn in Hn'. injection Hn' as <-.
        now split.
      + injection Hget as <-.
        exists (List.length (recipes_of db user)).
        rewrite firstn_all. split; [reflexivity|].
        intros s' n' [= <-] Hn'. destruct s; [discriminate Hn'|discriminate Hs].
    - injection Hget as <-. exists (List.length (recipes_of db user)).
      rewrite firstn_all. split; [reflexivity|]. intros; discriminate. }
  destruct Hk as [k [-> Hlimit]].
  split; [now exists k|]. split; [|split].
  - unfold recipes_count. rewrite length_map, length_firstn. lia.
  - intros r Hr. apply in_map_iff in Hr. destruct Hr as [row [<- Hrow]].
    assert (Hrow' : In row (recipes_of db user)).
    { rewrite <- (firstn_skipn k). apply in_or_app. now left. }
    clear Hrow. rename Hrow' into Hrow. unfold recipes_of in Hrow.
    apply filter_In in Hrow. destruct Hrow as [Hin Ha].
    exists row. repeat split; auto. now apply Z.eqb_eq.
  - intros s n Hs Hn. destruct (Hlimit s n Hs Hn) as [Hpos ->].
    unfold recipes_count. rewrite length_map, length_firstn. lia.
Qed.

End MoreUserProperties.

(** X2, at a request: alice has two recipes and the limit is 1. *)
Lemma recipes_field_within_count_witness :
  Z.of_nat (List.length
    [RecipesSmallSerializer (C := Demo.collaborators) Demo.pancakes])
  <= recipes_count Demo.db Demo.alice.
Proof.
  apply (recipes_field_within_count (C := Demo.collaborators) Demo.db
           {| request_user := Authenticated Demo.bob;
              query_params := [("recipes_limit", "1")] |}
           Demo.alice
           [RecipesSmallSerializer (C := Demo.collaborators) Demo.pancakes]).
  reflexivity.
Defined.

Lemma bind_pair_bound_inv {A B} (acc : binding (A -> B))
  (f : string * outcome A) (v : B) :
  acc <&> f = Bound v ->
  exists g a, acc = Bound g /\ snd f = Ok a /\ v = g a.
Proof.
  destruct f as [name o]. unfold bind_pair. cbn [fst snd].
  destruct acc as [g|errs|e]; destruct o as [a|[]]; cbn;
    try discriminate.
  intros [= <-]. now exists g, a.
Qed.

Lemma bound_ok_inv {A} (b : binding A) (v : A) :
  bound b = Ok v -> b = Bound v.
Proof. destruct b; cbn; congruence. Qed.

Lemma then_hook_ok_inv {A} (o : outcome A) (hook : A -> outcome A) (v : A) :
  then_hook o hook = Ok v -> exists a, o = Ok a /\ hook a = Ok v.
Proof. destruct o as [a|e]; cbn; [eauto | discriminate]. Qed.

Lemma NoDup_snoc {A} (l : list A) (x : A) :
  NoDup l -> ~ In x l -> NoDup (l ++ [x]).
Proof.
  intros Hl Hx. induction Hl as [|y l Hy Hl IH]; cbn.
  - constructor; [intros [] | constructor].
  - constructor.
    + intro H. apply in_app_or in H. destruct H as [H | [-> | []]].
      * contradiction.
      * apply Hx. now left.
    + apply IH. intro H. apply Hx. now right.
Qed.

Section MoreSignupProperties.

Context `{C : Collaborators}.

Lemma validate_email_ok_iff (db : DB) (email v : string) :
  validate_email db email = Ok v <-> v = email /\ email_free db email.
Proof.
  unfold validate_email, email_free.
  destruct (existsb _ (tbl_users db)) eqn:E.
  - split; [discriminate|]. intros [_ Hfree].
    apply existsb_exists in E. destruct E as [u [Hu He]].
    apply String.eqb_eq in He. now apply Hfree in Hu.
  - split.
    + intros [= <-]. split; [reflexivity|]. intros u Hu He.
      assert (existsb (fun u0 => (user_email u0 =? email)%string)
                      (tbl_users db) = true); [|congruence].
      apply existsb_exists. exists u. split; [assumption|].
      now apply String.eqb_eq.
    + now intros [-> _].
Qed.

Lemma validate_username_ok_iff (db : DB) (username v : string) :
  validate_username db username = Ok v
  <-> v = username /\ username_free db username.
Proof.
  unfold validate_username, username_free.
  destruct (existsb _ (tbl_users db)) eqn:E.
  - split; [discriminate|]. intros [_ Hfree].
    apply existsb_exists in E. destruct E as [u [Hu He]].
    apply String.eqb_eq in He. now apply Hfree in Hu.
  - split.
    + intros [= <-]. split; [reflexivity|]. intros u Hu He.
      assert (existsb (fun u0 => (user_username u0 =? username)%string)
                      (tbl_users db) = true); [|congruence].
      apply existsb_exists. exists u. split; [assumption|].
      now apply String.eqb_eq.
    + now intros [-> _].
Qed.

(** The payloads [UserSerializer] validates are those whose five fields
    bind and whose e-mail and username are free. *)
Lemma user_validation_ok_iff (db : DB) (data : dict jval) (v : UserData) :
  UserSerializer_run_validation db data = Ok v
  <-> signup_fields data v
      /\ email_free db (vd_email v) /\ username_free db (vd_username v).
Proof.
  unfold UserSerializer_run_validation, UserSerializer_to_internal_value,
    signup_fields.
  split.
  - intro H. unfold run_validation in H.
    destruct (bound _) as [v'|e] eqn:Hb; [|discriminate].
    injection H as ->. apply bound_ok_inv in Hb.
    apply bind_pair_bound_inv in Hb.
    destruct Hb as [g5 [p [Hb [Hp ->]]]].
    apply bind_pair_bound_inv in Hb.
    destruct Hb as [g4 [l [Hb [Hl ->]]]].
    apply bind_pair_bound_inv in Hb.
    destruct Hb as [g3 [f [Hb [Hf ->]]]].
    apply bind_pair_bound_inv in Hb.
    destruct Hb as [g2 [n [Hb [Hn ->]]]].
    apply bind_pair_bound_inv in Hb.
    destruct Hb as [g1 [e [Hb [He ->]]]].
    injection Hb as <-. cbn [snd] in *. cbn.
    apply then_hook_ok_inv in He. destruct He as [e' [He Hve]].
    apply then_hook_ok_inv in Hn. destruct Hn as [n' [Hn Hvn]].
    apply validate_email_ok_iff in Hve. destruct Hve as [-> Hfe].
    apply validate_username_ok_iff in Hvn. destruct Hvn as [-> Hfn].
    repeat split; assumption.
  - intros [[He [Hn [Hf [Hl Hp]]]] [Hfe Hfn]].
    rewrite He, Hn, Hf, Hl, Hp. cbn [then_hook].
    assert (validate_email db (vd_email v) = Ok (vd_email v)) as ->.
    { now apply validate_email_ok_iff. }
    assert (validate_username db (vd_username v) = Ok (vd_username v)) as ->.
    { now apply validate_username_ok_iff. }
    destruct v. reflexivity.
Qed.

(** What validation raises is the serializer's error with at least one
    field entry. *)
Lemma user_validation_raise_shape (db : DB) (data : dict jval) (e : exn) :
  UserSerializer_run_validation db data = Raise e ->
  exists errs, errs <> [] /\ e = ValidationError (FieldErrors errs).
Proof.
  unfold UserSerializer_run_validation, UserSerializer_to_internal_value,
    bind_pair. cbn [fst snd].
  assert (H1 : validation_only
                 (then_hook (EmailField (Some 254%nat) (dict_get "email" data))
                            (validate_email db))).
  { apply then_hook_validation_only; [apply CharField_validation_only|].
    intro a. unfold validate_email. now destruct (existsb _ _). }
  assert (H2 : validation_only
                 (then_hook (CharField (Some 150%nat) []
                                       (dict_get "username" data))
                            (validate_username db))).
  { apply then_hook_validation_only; [apply CharField_validation_only|].
    intro a. unfold validate_username. now destruct (existsb _ _). }
  pose proof (CharField_validation_only (Some 150%nat) []
                (dict_get "first_name" data)) as H3.
  pose proof (CharField_validation_only (Some 150%nat) []
                (dict_get "last_name" data)) as H4.
  pose proof (CharField_validation_only (Some 150%nat) []
                (dict_get "password" data)) as H5.
  destruct (then_hook (EmailField _ _) _) as [a1|[]]; try contradiction;
    destruct (then_hook (CharField _ _ (dict_get "username" data)) _)
      as [a2|[]]; try contradiction;
    destruct (CharField _ _ (dict_get "first_name" data)) as [a3|[]];
      try contradiction;
    destruct (CharField _ _ (dict_get "last_name" data)) as [a4|[]];
      try contradiction;
    destruct (CharField _ _ (dict_get "password" data)) as [a5|[]];
      try contradiction;
    cbn; intro H; try discriminate H; injection H as <-;
    eexists; (split; [|reflexivity]); discriminate.
Qed.

(** [create] run from a state without history. *)
Lemma create_user_run (db : DB) (v : UserData) :
  let hashed := set_password (inserted_user db v) (vd_password v) in
  let db1 := set_seq_user (seq_user db + 1)
               (set_users (fun rows => rows ++ [inserted_user db v]) db) in
  let db2 := set_users (upsert user_id hashed) db1 in
  UserSerializer_create v (start db)
  = (Ok hashed, {| now := db2; committed := [db1; db2] |}).
Proof. reflexivity. Qed.

Lemma signup_run (db : DB) (data : dict jval) :
  signup data (start db)
  = match UserSerializer_run_validation db data with
    | Ok v => UserSerializer_create v (start db)
    | Raise e => (Raise e, start db)
    end.
Proof.
  unfold signup, bind, query, lift. cbn [now start].
  now destruct (UserSerializer_run_validation db data).
Qed.

(** X3. A signup is accepted exactly when its five fields bind and its
    e-mail and username are free.  It then returns the new user, with the
    next id and the hash of the bound password, after two writes;
    otherwise it ends with the serializer's validation error, which has at
    least one field entry, and the store is as before.  No other exception
    leaves it and no refused signup writes. *)
Theorem signup_accepts_or_refuses (db : DB) (data : dict jval) :
  (exists v st,
      signup_fields data v
      /\ email_free db (vd_email v) /\ username_free db (vd_username v)
      /\ signup data (start db)
         = (Ok (set_password (inserted_user db v) (vd_password v)), st)
      /\ List.length (committed st) = 2%nat)
  \/ ((forall v, signup_fields data v ->
                 ~ (email_free db (vd_email v)
                    /\ username_free db (vd_username v)))
      /\ exists errs,
          errs <> []
          /\ signup data (start db)
             = (Raise (ValidationError (FieldErrors errs)), start db)).
Proof.
  rewrite signup_run.
  destruct (UserSerializer_run_validation db data) as [v|e] eqn:Hv.
  - left. apply user_validation_ok_iff in Hv.
    destruct Hv as [Hf [He Hn]].
    eexists v, _. rewrite create_user_run. cbv zeta.
    split; [exact Hf|]. split; [exact He|]. split; [exact Hn|].
    split; reflexivity.
  - right. split.
    + intros v Hf [He Hn].
      assert (UserSerializer_run_validation db data = Ok v) as Hok.
      { apply user_validation_ok_iff.
        split; [exact Hf | split; assumption]. }
      congruence.
    + apply user_validation_raise_shape in Hv.
      destruct Hv as [errs [Hne ->]]. now exists errs.
Qed.

(** X4. Signup keeps the users table free of duplicates: from a table in
    which ids are below the sequence and e-mails and usernames are
    pairwise distinct, an accepted signup appends exactly the returned
    user and leaves a table with the same properties. *)
Theorem signup_keeps_users_unique (db : DB) (data : dict jval) (u : User)
  (st : Store) :
  users_unique db ->
  signup data (start db) = (Ok u, st) ->
  tbl_users (now st) = tbl_users db ++ [u]
  /\ user_id u = seq_user db
  /\ seq_user (now st) = seq_user db + 1
  /\ users_unique (now st).
Proof.
  intros Huu Hrun. rewrite signup_run in Hrun.
  destruct (UserSerializer_run_validation db data) as [v|e] eqn:Hv;
    [|discriminate].
  apply user_validation_ok_iff in Hv. destruct Hv as [_ [He Hn]].
  rewrite create_user_run in Hrun. cbv zeta in Hrun.
  injection Hrun as <- <-. cbn [now].
  assert (Husers :
    tbl_users
      (set_users
         (upsert user_id (set_password (inserted_user db v) (vd_password v)))
         (set_seq_user (seq_user db + 1)
            (set_users (fun rows => rows ++ [inserted_user db v]) db)))
    = tbl_users db
      ++ [set_password (inserted_user db v) (vd_password v)]).
  { cbn [set_users tbl_users set_seq_user].
    rewrite upsert_last by reflexivity.
    rewrite map_fresh_id; [reflexivity|].
    intros r Hr. pose proof (uu_ids db Huu r Hr). cbn. lia. }
  split; [exact Husers|]. split; [reflexivity|]. split; [reflexivity|].
  constructor.
  - rewrite Husers. intros r Hr. apply in_app_or in Hr.
    destruct Hr as [Hr | [<- | []]].
    + pose proof (uu_ids db Huu r Hr). cbn. lia.
    + cbn. lia.
  - rewrite Husers, map_app. cbn [map]. apply NoDup_snoc.
    + apply (uu_emails db Huu).
    + intro H. apply in_map_iff in H. destruct H as [r [Hr Hin]].
      now apply (He r Hin).
  - rewrite Husers, map_app. cbn [map]. apply NoDup_snoc.
    + apply (uu_usernames db Huu).
    + intro H. apply in_map_iff in H. destruct H as [r [Hr Hin]].
      now apply (Hn r Hin).
Qed.

(** X5. Signup and the password check compose: the user an accepted
    signup returns and stores carries [make_password] of the password as
    the field bound it, so with a hasher whose [check_password] accepts
    what [make_password] made, the current-password check of the
    password change accepts that same password for the new user. *)
Theorem signed_up_password_checks (db : DB) (data : dict jval) (u : User)
  (st : Store) (p : string) :
  (forall raw, check_password raw (make_password raw) = true) ->
  signup data (start db) = (Ok u, st) ->
  CharField (Some 150%nat) [] (dict_get "password" data) = Ok p ->
  user_password u = make_password p
  /\ In u (tbl_users (now st))
  /\ validate_current_password u p = Ok p.
Proof.
  intros Hlaw Hrun Hp. rewrite signup_run in Hrun.
  destruct (UserSerializer_run_validation db data) as [v|e] eqn:Hv;
    [|discriminate].
  apply user_validation_ok_iff in Hv.
  destruct Hv as [[_ [_ [_ [_ Hpv]]]] _].
  rewrite Hp in Hpv. injection Hpv as ->.
  rewrite create_user_run in Hrun. cbv zeta in Hrun.
  injection Hrun as <- <-. split; [reflexivity|]. split.
  - cbn [now set_users tbl_users set_seq_user].
    rewrite upsert_last by reflexivity. apply in_or_app. right. now left.
  - unfold validate_current_password. cbn [set_password user_password].
    now rewrite Hlaw.
Qed.

End MoreSignupProperties.

Lemma demo_users_unique : users_unique Demo.db.
Proof.
  constructor; cbn.
  - intros u [<- | [<- | []]]; cbn; lia.
  - repeat constructor; cbn; intuition discriminate.
  - repeat constructor; cbn; intuition discriminate.
Qed.

(** X4, at a signup: carol joins alice and bob. *)
Lemma signup_keeps_users_unique_witness :
  tbl_users
    (now (snd (signup (C := Demo.collaborators)
                 (Demo.signup_payload "carol@example.com" "carol")
                 (start Demo.db))))
  = [Demo.alice; Demo.bob; Demo.carol]
  /\ users_unique
       (now (snd (signup (C := Demo.collaborators)
                    (Demo.signup_payload "carol@example.com" "carol")
                    (start Demo.db)))).
Proof.
  destruct (signup_keeps_users_unique (C := Demo.collaborators) Demo.db
              (Demo.signup_payload "carol@example.com" "carol") Demo.carol
              (snd (signup (C := Demo.collaborators)
                      (Demo.signup_payload "carol@example.com" "carol")
                      (start Demo.db)))
              demo_users_unique eq_refl) as [Husers [_ [_ Huu]]].
  split; [exact Husers | exact Huu].
Defined.

(** X5, at a signup: carol's password is accepted as her current one. *)
Lemma signed_up_password_checks_witness :
  fst (signup (C := Demo.collaborators)
         (Demo.signup_payload "carol@example.com" "carol") (start Demo.db))
  = Ok Demo.carol
  /\ validate_current_password (C := Demo.collaborators) Demo.carol
       "hunter2hunter2"
     = Ok "hunter2hunter2".
Proof.
  split; [reflexivity|].
  apply (signed_up_password_checks (C := Demo.collaborators) Demo.db
           (Demo.signup_payload "carol@example.com" "carol") Demo.carol
           (snd (signup (C := Demo.collaborators)
                   (Demo.signup_payload "carol@example.com" "carol")
                   (start Demo.db)))
           "hunter2hunter2").
  - intro raw. apply String.eqb_refl.
  - reflexivity.
  - reflexivity.
Defined.

(* ================================================================== *)
(** * Further properties: the image path and validated ingredients *)
(* ================================================================== *)






Lemma PrimaryKeyRelatedField_sound {R} (pk : R -> Z) (rows : list R)
  (data : option jval) (r : R) :
  PrimaryKeyRelatedField pk rows data = Ok r ->
  In r rows /\ forall n, data = Some (JNum n) -> pk r = n.
Proof.
  unfold PrimaryKeyRelatedField.
  destruct data as [[| | n | s | | |]|]; try discriminate.
  - destruct (find _ rows) as [r'|] eqn:E; [|discriminate].
    intros [= <-]. apply find_some in E. destruct E as [Hin Hpk].
    split; [assumption|]. intros n' [= <-]. now apply Z.eqb_eq.
  - destruct (Py.truthy_str s); [|discriminate]. cbn [negb].
    destruct (Py.int s) as [n|]; [|discriminate].
    destruct (find _ rows) as [r'|] eqn:E; [|discriminate].
    intros [= <-]. apply find_some in E. split; [apply E | discriminate].
Qed.

Lemma validate_amount_ok_inv (a v : Z) :
  validate_amount a = Ok v -> v = a /\ 0 < a.
Proof.
  unfold validate_amount. destruct (Z.leb_spec a 0); [discriminate|].
  intros [= <-]. split; [reflexivity | lia].
Qed.

Lemma validated_entry_sound (db : DB) (data : dict jval)
  (entry : IngredientEntry) :
  IngredientsSerializer_to_internal_value db data = Ok entry ->
  In (entry_id entry) (tbl_ingredients db)
  /\ 0 < entry_amount entry
  /\ (forall n, dict_get "id" data = Some (JNum n) ->
                ingredient_id (entry_id entry) = n)
  /\ IntegerField (dict_get "amount" data) = Ok (entry_amount entry).
Proof.
  unfold IngredientsSerializer_to_internal_value. intro H.
  apply bound_ok_inv in H.
  apply bind_pair_bound_inv in H. destruct H as [g2 [a [H [Ha ->]]]].
  apply bind_pair_bound_inv in H. destruct H as [g1 [i [H [Hi ->]]]].
  injection H as <-. cbn [snd] in *. cbn.
  apply PrimaryKeyRelatedField_sound in Hi. destruct Hi as [Hin Hpk].
  apply then_hook_ok_inv in Ha. destruct Ha as [a' [Ha Hv]].
  apply validate_amount_ok_inv in Hv. destruct Hv as [-> Hpos].
  repeat split; assumption.
Qed.

Lemma validate_items_sound {A} (child : dict jval -> outcome A)
  (P : A -> Prop) (items : list jval) (l : list A) (errs : list detail) :
  (forall d a, child d = Ok a -> P a) ->
  validate_items child items = (Bound l, errs) ->
  Forall P l /\ List.length l = List.length items.
Proof.
  intro Hchild. revert l errs.
  induction items as [|item items IH]; intros l errs; cbn.
  - intros [= <- <-]. split; [constructor | reflexivity].
  - destruct (validate_items child items) as [acc errs0].
    destruct item as [| | | | |d|]; try (destruct acc; discriminate).
    destruct (child d) as [a|[]] eqn:Hd; destruct acc as [l0|?|?];
      try discriminate.
    intros [= <- <-]. destruct (IH l0 errs0 eq_refl) as [Hall Hlen].
    split; [constructor; eauto | cbn; now rewrite Hlen].
Qed.

Lemma validated_list_sound (db : DB) (data : option jval)
  (es : list IngredientEntry) :
  ListSerializer (IngredientsSerializer_to_internal_value db) data = Ok es ->
  exists items,
    data = Some (JList items)
    /\ List.length es = List.length items
    /\ Forall (fun e => In (entry_id e) (tbl_ingredients db)
                        /\ 0 < entry_amount e) es.
Proof.
  unfold ListSerializer.
  destruct data as [[| | | | items | |]|]; try discriminate.
  destruct (validate_items _ items) as [[l|?|?] errs] eqn:Hv;
    try discriminate.
  intros [= <-]. exists items. split; [reflexivity|].
  destruct (validate_items_sound
              (IngredientsSerializer_to_internal_value db)
              (fun e => In (entry_id e) (tbl_ingredients db)
                        /\ 0 < entry_amount e) items l errs) as [Hall Hlen];
    [|exact Hv|now split].
  intros d a Ha. apply validated_entry_sound in Ha. split; apply Ha.
Qed.



(* ================================================================== *)
(** * Further properties: recipes from payload to tables *)
(* ================================================================== *)

Lemma numbered_lines_bounds (rid pk : Z) (es : list IngredientEntry) :
  forall l, In l (numbered_lines rid pk es) ->
            line_recipe l = rid
            /\ pk <= line_id l < pk + Z.of_nat (List.length es).
Proof.
  revert pk. induction es as [|e es IH]; intros pk l; [contradiction|].
  cbn [numbered_lines List.length]. intros [<- | H]; cbn [line_recipe line_id].
  - split; [reflexivity | lia].
  - apply IH in H. split; [apply H | lia].
Qed.

Lemma numbered_lines_ids (rid pk : Z) (es : list IngredientEntry) :
  NoDup (map line_id (numbered_lines rid pk es)).
Proof.
  revert pk. induction es as [|e es IH]; intro pk; cbn; constructor.
  - intro H. apply in_map_iff in H. destruct H as [l [Hid Hl]].
    apply numbered_lines_bounds in Hl. cbn in Hid. lia.
  - apply IH.
Qed.

Lemma numbered_lines_amounts (rid pk : Z) (es : list IngredientEntry) :
  map line_amount (numbered_lines rid pk es) = map entry_amount es.
Proof.
  revert pk. induction es as [|e es IH]; intro pk; cbn;
    [reflexivity | now rewrite IH].
Qed.

Lemma NoDup_map_filter {A B} (g : A -> B) (f : A -> bool) (l : list A) :
  NoDup (map g l) -> NoDup (map g (filter f l)).
Proof.
  induction l as [|x l IH]; cbn; [auto|]. intro H.
  inversion H as [|? ? Hx Hl]; subst.
  destruct (f x); cbn; [constructor|]; auto.
  intro Hin. apply Hx. apply in_map_iff in Hin.
  destruct Hin as [y [Hy Hin]]. apply filter_In in Hin.
  apply in_map_iff. exists y. split; [assumption | apply Hin].
Qed.

(** The lines table stays well keyed when lines numbered from the
    sequence are appended to a part of it. *)
Lemma lines_wf_after_append (lines kept : list RecipesIngridients)
  (rid seq seq_rec : Z) (es : list IngredientEntry) :
  NoDup (map line_id kept) ->
  (forall l, In l kept -> In l lines) ->
  (forall l, In l lines -> line_id l < seq) ->
  (forall l, In l lines -> line_recipe l < seq_rec) ->
  rid < seq_rec ->
  let lines' := kept ++ numbered_lines rid seq es in
  NoDup (map line_id lines')
  /\ (forall l, In l lines' ->
        line_id l < seq + Z.of_nat (List.length es))
  /\ (forall l, In l lines' -> line_recipe l < seq_rec).
Proof.
  intros Hnd Hsub Hseq Hrec Hrid. cbv zeta. split; [|split].
  - rewrite map_app. apply NoDup_app; [assumption | apply numbered_lines_ids|].
    intros id H1 H2. apply in_map_iff in H1. destruct H1 as [l [<- Hl]].
    apply in_map_iff in H2. destruct H2 as [l' [Hid Hl']].
    apply numbered_lines_bounds in Hl'. apply Hsub, Hseq in Hl. lia.
  - intros l Hl. apply in_app_or in Hl. destruct Hl as [Hl | Hl].
    + apply Hsub, Hseq in Hl. lia.
    + apply numbered_lines_bounds in Hl. lia.
  - intros l Hl. apply in_app_or in Hl. destruct Hl as [Hl | Hl].
    + now apply Hrec, Hsub.
    + apply numbered_lines_bounds in Hl. destruct Hl as [-> _]. exact Hrid.
Qed.

Lemma rows_after_set_other (rid : Z) (ids : list Z)
  (rows : list RecipeTag) (rt : RecipeTag) :
  rt_recipe rt <> rid ->
  (In rt (rows_after_set rid ids rows) <-> In rt rows).
Proof.
  intro Hne. unfold rows_after_set. rewrite in_app_iff, filter_In. split.
  - intros [[H _] | H]; [assumption|].
    apply in_map_iff in H. destruct H as [t [<- _]]. now contradiction Hne.
  - intro H. left. split; [assumption|].
    apply orb_true_iff. left. apply negb_true_iff. now apply Z.eqb_neq.
Qed.

Lemma upsert_In {R} (pk : R -> Z) (x : R) (rows : list R) :
  In x (upsert pk x rows)
  /\ forall r, pk r <> pk x -> (In r (upsert pk x rows) <-> In r rows).
Proof.
  unfold upsert. destruct (existsb _ rows) eqn:E.
  - split.
    + apply existsb_exists in E. destruct E as [r [Hr Hpk]].
      apply in_map_iff. exists r. now rewrite Hpk.
    + intros r Hne. rewrite in_map_iff. split.
      * intros [r0 [Hr0 Hin]].
        destruct (Z.eqb_spec (pk r0) (pk x)); subst; [congruence | assumption].
      * intro Hin. exists r. split; [|assumption].
        destruct (Z.eqb_spec (pk r) (pk x)); [contradiction | reflexivity].
  - split; [apply in_or_app; right; now left|].
    intros r Hne. rewrite in_app_iff. cbn. intuition congruence.
Qed.

Section MoreRecipeProperties.

Context `{C : Collaborators} `{F : RecipeFields}.

(** The state [create] leaves, in full. *)
Lemma create_now (db : DB) (validated_data : RecipeData) (recipe : Recipes)
  (st : Store) :
  (forall es, vd_ingredients validated_data = Some es ->
     Forall (fun e => In (entry_id e) (tbl_ingredients db)) es) ->
  RecipesSerializer_create validated_data (start db) = (Ok recipe, st) ->
  exists es ts author time,
    vd_ingredients validated_data = Some es
    /\ vd_tags validated_data = Some ts
    /\ vd_author validated_data = Some (CurrentUser (Authenticated author))
    /\ vd_cooking_time validated_data = Some time
    /\ recipe_id recipe = seq_recipe db
    /\ recipe_author recipe = user_id author
    /\ recipe_cooking_time recipe = time
    /\ now st
       = set_seq_line (seq_line db + Z.of_nat (List.length es))
           (set_lines
              (fun rows => rows ++ numbered_lines (seq_recipe db)
                                     (seq_line db) es)
              (set_recipe_tags
                 (rows_after_set (seq_recipe db) (map tag_id ts))
                 (set_seq_recipe (seq_recipe db + 1)
                    (set_recipes (fun rows => rows ++ [recipe]) db)))).
Proof.
  intros Hres Hrun. unfold RecipesSerializer_create in Hrun.
  destruct (vd_ingredients validated_data) as [es|] eqn:Hes;
    [|discriminate].
  destruct (vd_tags validated_data) as [ts|] eqn:Hts; [|discriminate].
  unfold Recipes_objects_create in Hrun.
  destruct (vd_author validated_data) as [[[|author]|d]|] eqn:Hauthor;
    destruct (vd_cooking_time validated_data) as [time|] eqn:Htime;
    try discriminate.
  unfold tags_set, bind, query, write, ret in Hrun.
  cbn [now committed start recipe_id] in Hrun.
  match type of Hrun with context [add_ingredients ?r es ?s] =>
    destruct (add_ingredients_run r es s) as [log Hadd] end.
  { now apply Hres. }
  rewrite Hadd in Hrun. injection Hrun as <- <-.
  exists es, ts, author, time. repeat split.
Qed.

(** X9. [create] keeps the tables well formed: line keys stay unique
    and below the line sequence, every line refers to a recipe below the
    recipe sequence, the tag and ingredient tables are untouched.  The new
    recipe takes the next id of the sequence and is in the table. *)
Theorem create_keeps_tables_well_formed (db : DB)
  (validated_data : RecipeData) (recipe : Recipes) (st : Store) :
  db_wf db ->
  (forall es, vd_ingredients validated_data = Some es ->
     Forall (fun e => In (entry_id e) (tbl_ingredients db)) es) ->
  RecipesSerializer_create validated_data (start db) = (Ok recipe, st) ->
  db_wf (now st)
  /\ recipe_id recipe = seq_recipe db
  /\ seq_recipe (now st) = seq_recipe db + 1
  /\ tbl_recipes (now st) = tbl_recipes db ++ [recipe].
Proof.
  intros Hwf Hres Hrun.
  destruct (create_now db validated_data recipe st Hres Hrun)
    as [es [ts [author [time [_ [_ [_ [_ [Hid [_ [_ Hnow]]]]]]]]]]].
  rewrite Hnow. split; [|repeat split; assumption].
  destruct (lines_wf_after_append (tbl_lines db) (tbl_lines db)
              (seq_recipe db) (seq_line db) (seq_recipe db + 1) es
              (wf_line_ids db Hwf) (fun l H => H) (wf_line_seq db Hwf))
    as [H1 [H2 H3]].
  { intros l Hl. pose proof (wf_line_recipe db Hwf l Hl). lia. }
  { lia. }
  constructor; cbn; auto.
  - apply (wf_tag_ids db Hwf).
  - apply (wf_ingredient_ids db Hwf).
Qed.

(** The outcome and the tables [update] leaves, in full. *)
Lemma update_run (db : DB) (recipe : Recipes) (validated_data : RecipeData) :
  (forall es, vd_ingredients validated_data = Some es ->
     Forall (fun e => In (entry_id e) (tbl_ingredients db)) es) ->
  let rid := recipe_id recipe in
  let db1 :=
    match vd_tags validated_data with
    | Some (t :: ts) =>
        set_recipe_tags (rows_after_set rid (map tag_id (t :: ts))) db
    | _ => db
    end in
  let db2 :=
    match vd_ingredients validated_data with
    | Some (i :: l) =>
        set_seq_line (seq_line db + Z.of_nat (List.length (i :: l)))
          (set_lines
             (fun rows =>
                filter
                  (fun x => negb (existsb (fun r => line_id x =? line_id r)
                                    (filter (fun r => line_recipe r =? rid)
                                            (tbl_lines db))))
                  rows
                ++ numbered_lines rid (seq_line db) (i :: l))
             db1)
    | _ => db1
    end in
  let remaining :=
    set_remaining recipe
      match vd_tags validated_data with
      | Some (_ :: _) => None
      | other => other
      end
      match vd_ingredients validated_data with
      | Some (_ :: _) => None
      | other => other
      end
      validated_data in
  fst (RecipesSerializer_update recipe validated_data (start db)) = remaining
  /\ now (snd (RecipesSerializer_update recipe validated_data (start db)))
     = match remaining with
       | Ok recipe' => set_recipes (upsert recipe_id recipe') db2
       | Raise _ => db2
       end.
Proof.
  intro Hres. cbv zeta. unfold RecipesSerializer_update.
  set (tags_step :=
         match vd_tags validated_data with
         | Some (t :: ts) => tags_set recipe (t :: ts);;; ret None
         | other => ret other
         end).
  assert (Htags : exists st1,
    tags_step (start db)
    = (Ok match vd_tags validated_data with
          | Some (_ :: _) => None
          | other => other
          end, st1)
    /\ now st1
       = match vd_tags validated_data with
         | Some (t :: ts) =>
             set_recipe_tags
               (rows_after_set (recipe_id recipe) (map tag_id (t :: ts))) db
         | _ => db
         end).
  { subst tags_step. destruct (vd_tags validated_data) as [[|t ts]|];
      eexists; (split; [reflexivity|]); reflexivity. }
  destruct Htags as [st1 [Hrun1 Hnow1]].
  rewrite (bind_ok _ _ _ _ _ Hrun1).
  assert (Hl1 : tbl_lines (now st1) = tbl_lines db
                /\ seq_line (now st1) = seq_line db
                /\ tbl_ingredients (now st1) = tbl_ingredients db).
  { rewrite Hnow1. destruct (vd_tags validated_data) as [[|t ts]|];
      repeat split. }
  destruct Hl1 as [Hl1 [Hs1 Hi1]].
  set (split_ing :=
         match vd_ingredients validated_data with
         | Some (i :: l) => (Some (i :: l), None)
         | other => (None, other)
         end).
  assert (Hing : exists st2,
    (match fst split_ing with
     | Some (i :: l) =>
         rows <- query (fun db0 =>
                   filter (fun r => line_recipe r =? recipe_id recipe)
                          (tbl_lines db0)) ;;
         for_each rows line_delete ;;; add_ingredients recipe (i :: l)
     | _ => ret tt
     end) st1 = (Ok tt, st2)
    /\ snd split_ing
       = match vd_ingredients validated_data with
         | Some (_ :: _) => None
         | other => other
         end
    /\ now st2
       = match vd_ingredients validated_data with
         | Some (i :: l) =>
             set_seq_line (seq_line db + Z.of_nat (List.length (i :: l)))
               (set_lines
                  (fun rows =>
                     filter
                       (fun x =>
                          negb (existsb (fun r => line_id x =? line_id r)
                                  (filter
                                     (fun r => line_recipe r
                                               =? recipe_id recipe)
                                     (tbl_lines db))))
                       rows
                     ++ numbered_lines (recipe_id recipe) (seq_line db)
                          (i :: l))
                  (now st1))
         | _ => now st1
         end).
  { subst split_ing.
    destruct (vd_ingredients validated_data) as [[|i l]|] eqn:Ev;
      cbn [fst snd];
      try (exists st1; split; [reflexivity|]; split; reflexivity).
    unfold bind at 1. unfold query at 1.
    destruct (delete_lines_run
                (filter (fun r => line_recipe r =? recipe_id recipe)
                        (tbl_lines (now st1))) st1) as [log1 Hdel].
    rewrite (bind_ok _ _ _ _ _ Hdel).
    match goal with |- context [add_ingredients recipe ?es ?s] =>
      destruct (add_ingredients_run recipe es s) as [log2 Hadd] end.
    { cbn [now set_lines tbl_ingredients]. rewrite Hi1.
      exact (Hres _ eq_refl). }
    eexists. split; [exact Hadd|]. split; [reflexivity|]. cbn [now].
    clear Hnow1 Hdel Hadd Hrun1.
    destruct (now st1) eqn:Edb. cbn in *. subst. reflexivity. }
  destruct Hing as [st2 [Hrun2 [Hleft Hnow2]]].
  destruct split_ing as [ingredients ingredients_left] eqn:Esplit.
  cbn [fst snd] in Hrun2, Hleft.
  rewrite (bind_ok _ _ _ _ _ Hrun2). rewrite Hleft.
  rewrite Hnow1 in Hnow2.
  unfold bind, lift.
  destruct (set_remaining recipe _ _ validated_data) as [recipe'|e];
    unfold Recipes_save, write, ret, raise; cbn [fst snd now];
    (split; [reflexivity|]); now rewrite Hnow2.
Qed.

(** X10. [update] keeps the tables well formed, whether it returns or
    raises on the remaining fields: for a recipe that has been created,
    line keys stay unique and below the line sequence and every line still
    refers to a created recipe. *)
Theorem update_keeps_tables_well_formed (db : DB) (recipe : Recipes)
  (validated_data : RecipeData) :
  db_wf db ->
  recipe_id recipe < seq_recipe db ->
  (forall es, vd_ingredients validated_data = Some es ->
     Forall (fun e => In (entry_id e) (tbl_ingredients db)) es) ->
  db_wf (now (snd (RecipesSerializer_update recipe validated_data
                     (start db)))).
Proof.
  intros Hwf Hrid Hres.
  destruct (update_run db recipe validated_data Hres) as [_ Hnow].
  cbv zeta in Hnow. rewrite Hnow. clear Hnow.
  set (filtered :=
         filter
           (fun x => negb (existsb (fun r => line_id x =? line_id r)
                             (filter (fun r => line_recipe r
                                               =? recipe_id recipe)
                                     (tbl_lines db))))
           (tbl_lines db)).
  assert (Hsub : forall l, In l filtered -> In l (tbl_lines db)).
  { intros l Hl. apply filter_In in Hl. apply Hl. }
  assert (Hnd : NoDup (map line_id filtered)).
  { apply NoDup_map_filter. apply (wf_line_ids db Hwf). }
  assert (Hwf2 : db_wf
    match vd_ingredients validated_data with
    | Some (i :: l) =>
        set_seq_line (seq_line db + Z.of_nat (List.length (i :: l)))
          (set_lines
             (fun rows =>
                filter
                  (fun x => negb (existsb (fun r => line_id x =? line_id r)
                                    (filter (fun r => line_recipe r
                                                      =? recipe_id recipe)
                                            (tbl_lines db))))
                  rows
                ++ numbered_lines (recipe_id recipe) (seq_line db) (i :: l))
             match vd_tags validated_data with
             | Some (t :: ts) =>
                 set_recipe_tags
                   (rows_after_set (recipe_id recipe) (map tag_id (t :: ts)))
                   db
             | _ => db
             end)
    | _ =>
        match vd_tags validated_data with
        | Some (t :: ts) =>
            set_recipe_tags
              (rows_after_set (recipe_id recipe) (map tag_id (t :: ts))) db
        | _ => db
        end
    end).
  { destruct (vd_ingredients validated_data) as [[|i l]|];
      destruct (vd_tags validated_data) as [[|t ts]|];
      try (destruct Hwf; constructor; cbn; assumption);
      destruct (lines_wf_after_append (tbl_lines db) filtered
                  (recipe_id recipe) (seq_line db) (seq_recipe db) (i :: l)
                  Hnd Hsub (wf_line_seq db Hwf) (wf_line_recipe db Hwf) Hrid)
        as [H1 [H2 H3]];
      constructor; cbn [tbl_lines seq_line seq_recipe tbl_tags
                        tbl_ingredients set_seq_line set_lines
                        set_recipe_tags];
      auto; try apply (wf_tag_ids db Hwf);
      apply (wf_ingredient_ids db Hwf). }
  destruct (set_remaining recipe _ _ validated_data); [|exact Hwf2].
  destruct Hwf2. constructor; cbn; assumption.
Qed.

(** X11. What [update] saves of the remaining fields.  When it returns,
    the returned recipe has the id of the one given, each of name, image,
    text and cooking time is the value given or else the old one, and the
    recipe is in the table, whose rows of other ids are as before.  When
    it raises on the remaining fields, the recipes table is as before. *)
Theorem update_saves_remaining_fields (db : DB) (recipe : Recipes)
  (validated_data : RecipeData) :
  (forall es, vd_ingredients validated_data = Some es ->
     Forall (fun e => In (entry_id e) (tbl_ingredients db)) es) ->
  let result := RecipesSerializer_update recipe validated_data (start db) in
  (forall recipe', fst result = Ok recipe' ->
     recipe_id recipe' = recipe_id recipe
     /\ recipe_name recipe'
        = match vd_name validated_data with
          | Some s => s
          | None => recipe_name recipe
          end
     /\ recipe_image recipe'
        = match vd_image validated_data with
          | Some f => storage_save f
          | None => recipe_image recipe
          end
     /\ recipe_text recipe'
        = match vd_text validated_data with
          | Some s => s
          | None => recipe_text recipe
          end
     /\ recipe_cooking_time recipe'
        = match vd_cooking_time validated_data with
          | Some t => t
          | None => recipe_cooking_time recipe
          end
     /\ In recipe' (tbl_recipes (now (snd result)))
     /\ forall r, recipe_id r <> recipe_id recipe ->
          (In r (tbl_recipes (now (snd result))) <-> In r (tbl_recipes db)))
  /\ (forall e, fst result = Raise e ->
        tbl_recipes (now (snd result)) = tbl_recipes db).
Proof.
  intro Hres. cbv zeta.
  destruct (update_run db recipe validated_data Hres) as [Hfst Hnow].
  cbv zeta in Hfst, Hnow. rewrite Hfst, Hnow. clear Hfst Hnow.
  assert (Hrecipes : forall d1,
    tbl_recipes
      match vd_ingredients validated_data with
      | Some (i :: l) =>
          set_seq_line (seq_line db + Z.of_nat (List.length (i :: l)))
            (set_lines
               (fun rows =>
                  filter
                    (fun x => negb (existsb (fun r => line_id x =? line_id r)
                                      (filter (fun r => line_recipe r
                                                        =? recipe_id recipe)
                                              (tbl_lines db))))
                    rows
                  ++ numbered_lines (recipe_id recipe) (seq_line db) (i :: l))
               d1)
      | _ => d1
      end = tbl_recipes d1).
  { intro d1. now destruct (vd_ingredients validated_data) as [[|]|]. }
  assert (Hrecipes1 :
    tbl_recipes
      match vd_tags validated_data with
      | Some (t :: ts) =>
          set_recipe_tags
            (rows_after_set (recipe_id recipe) (map tag_id (t :: ts))) db
      | _ => db
      end = tbl_recipes db).
  { now destruct (vd_tags validated_data) as [[|]|]. }
  split.
  - intros recipe' Hok. rewrite Hok.
    unfold set_remaining in Hok.
    destruct (match vd_tags validated_data with
              | Some (_ :: _) => None
              | other => other
              end); [discriminate|].
    destruct (match vd_author validated_data with
              | Some (CurrentUser (Authenticated author)) =>
                  Ok (user_id author)
              | Some _ => Raise ValueError
              | None => Ok (recipe_author recipe)
              end) as [author|]; [|discriminate].
    destruct (match vd_ingredients validated_data with
              | Some (_ :: _) => None
              | other => other
              end); [discriminate|].
    injection Hok as <-. cbn [recipe_id recipe_name recipe_image recipe_text
                               recipe_cooking_time].
    repeat (split; [reflexivity|]).
    cbn [tbl_recipes set_recipes]. rewrite Hrecipes, Hrecipes1.
    match goal with |- In ?x (upsert _ ?x ?rows) /\ _ =>
      destruct (upsert_In recipe_id x rows) as [Hin Hother] end.
    split; [exact Hin | exact Hother].
  - intros e He. rewrite He. now rewrite Hrecipes, Hrecipes1.
Qed.

(** X12. [update] with a non-empty tags list replaces the recipe's tags
    wholesale: a read that follows shows exactly the given tags, each
    once, and the rows of other recipes in the tag relation are as
    before. *)
Theorem update_replaces_tags (db : DB) (recipe : Recipes)
  (validated_data : RecipeData) (ts : list Tags) :
  NoDup (map tag_id (tbl_tags db)) ->
  (forall es, vd_ingredients validated_data = Some es ->
     Forall (fun e => In (entry_id e) (tbl_ingredients db)) es) ->
  vd_tags validated_data = Some ts ->
  ts <> [] ->
  Forall (fun t => In t (tbl_tags db)) ts ->
  let db' :=
    now (snd (RecipesSerializer_update recipe validated_data (start db))) in
  (forall x, In x (map TagsSerializer (tags_all db' recipe))
             <-> In x (map TagsSerializer ts))
  /\ NoDup (map TagsSerializer (tags_all db' recipe))
  /\ (NoDup ts ->
      List.length (map TagsSerializer (tags_all db' recipe))
      = List.length ts)
  /\ (forall rt, rt_recipe rt <> recipe_id recipe ->
        (In rt (tbl_recipe_tags db') <-> In rt (tbl_recipe_tags db))).
Proof.
  intros Hnd Hres Hts Hne Hall. cbv zeta.
  destruct (update_run db recipe validated_data Hres) as [_ Hnow].
  cbv zeta in Hnow. rewrite Hnow. clear Hnow. rewrite Hts.
  destruct ts as [|t ts]; [congruence|].
  assert (Hproj : forall d,
    (d = match
           set_remaining recipe None
             match vd_ingredients validated_data with
             | Some (_ :: _) => None
             | other => other
             end validated_data
         with
         | Ok recipe' =>
             set_recipes (upsert recipe_id recipe')
               match vd_ingredients validated_data with
               | Some (i :: l) =>
                   set_seq_line
                     (seq_line db + Z.of_nat (List.length (i :: l)))
                     (set_lines
                        (fun rows =>
                           filter
                             (fun x =>
                                negb (existsb
                                        (fun r => line_id x =? line_id r)
                                        (filter
                                           (fun r => line_recipe r
                                                     =? recipe_id recipe)
                                           (tbl_lines db))))
                             rows
                           ++ numbered_lines (recipe_id recipe) (seq_line db)
                                (i :: l))
                        (set_recipe_tags
                           (rows_after_set (recipe_id recipe)
                              (map tag_id (t :: ts))) db))
               | _ =>
                   set_recipe_tags
                     (rows_after_set (recipe_id recipe)
                        (map tag_id (t :: ts))) db
               end
         | Raise _ =>
             match vd_ingredients validated_data with
             | Some (i :: l) =>
                 set_seq_line
                   (seq_line db + Z.of_nat (List.length (i :: l)))
                   (set_lines
                      (fun rows =>
                         filter
                           (fun x =>
                              negb (existsb
                                      (fun r => line_id x =? line_id r)
                                      (filter
                                         (fun r => line_recipe r
                                                   =? recipe_id recipe)
                                         (tbl_lines db))))
                           rows
                         ++ numbered_lines (recipe_id recipe) (seq_line db)
                              (i :: l))
                      (set_recipe_tags
                         (rows_after_set (recipe_id recipe)
                            (map tag_id (t :: ts))) db))
             | _ =>
                 set_recipe_tags
                   (rows_after_set (recipe_id recipe)
                      (map tag_id (t :: ts))) db
             end
         end) ->
    tbl_recipe_tags d
    = rows_after_set (recipe_id recipe) (map tag_id (t :: ts))
        (tbl_recipe_tags db)
    /\ tbl_tags d = tbl_tags db).
  { intros d ->.
    destruct (set_remaining _ _ _ _);
      destruct (vd_ingredients validated_data) as [[|]|]; split; reflexivity. }
  match goal with |- context [tags_all ?d recipe] =>
    destruct (Hproj d eq_refl) as [Hrows Htags]; set (db' := d) in * end.
  assert (Htagsall : tags_all db' recipe
                     = filter (fun x => existsb (Z.eqb (tag_id x))
                                                (map tag_id (t :: ts)))
                              (tbl_tags db)).
  { unfold tags_all. rewrite Htags, Hrows. apply filter_ext. intro x.
    apply rows_after_set_spec. }
  rewrite Htagsall.
  destruct (read_tags_after_set (tbl_tags db) (t :: ts) Hnd Hall)
    as [Hsame [Hnd' Hlen]].
  split; [exact Hsame|]. split; [exact Hnd'|]. split; [exact Hlen|].
  intros rt Hrt. rewrite Hrows. now apply rows_after_set_other.
Qed.

Lemma skippable_required_inv {A} (field : option jval -> outcome A)
  (data : option jval) (v : option A) :
  skippable false field data = Ok v ->
  exists a, v = Some a /\ field data = Ok a.
Proof.
  unfold skippable. destruct data; destruct (field _) as [a|e];
    try discriminate; intros [= <-]; now exists a.
Qed.

Lemma validate_cooking_time_ok_inv (t v : Z) :
  validate_cooking_time t = Ok v -> v = t /\ 0 < t.
Proof.
  unfold validate_cooking_time. destruct (Z.leb_spec t 0); [discriminate|].
  intros [= <-]. split; [reflexivity | lia].
Qed.

(** What a payload bound without [partial] holds, when the payload names
    no author. *)
Lemma super_bound_complete (db : DB) (request : Request)
  (data : dict jval) (v : RecipeData) :
  super_to_internal_value db request false data = Ok v ->
  dict_get "author" data = None ->
  exists ts es time,
    vd_tags v = Some ts
    /\ vd_author v = Some (CurrentUser (request_user request))
    /\ vd_ingredients v = Some es
    /\ ListSerializer (IngredientsSerializer_to_internal_value db)
                      (dict_get "ingredients" data) = Ok es
    /\ vd_cooking_time v = Some time
    /\ 0 < time.
Proof.
  unfold super_to_internal_value. intros H Hauthor.
  apply bound_ok_inv in H.
  apply bind_pair_bound_inv in H. destruct H as [g7 [a7 [H [H7 ->]]]].
  apply bind_pair_bound_inv in H. destruct H as [g6 [a6 [H [H6 ->]]]].
  apply bind_pair_bound_inv in H. destruct H as [g5 [a5 [H [H5 ->]]]].
  apply bind_pair_bound_inv in H. destruct H as [g4 [a4 [H [H4 ->]]]].
  apply bind_pair_bound_inv in H. destruct H as [g3 [a3 [H [H3 ->]]]].
  apply bind_pair_bound_inv in H. destruct H as [g2 [a2 [H [H2 ->]]]].
  apply bind_pair_bound_inv in H. destruct H as [g1 [a1 [H [H1 ->]]]].
  injection H as <-. cbn [snd] in *.
  cbn [vd_tags vd_author vd_ingredients vd_cooking_time].
  apply skippable_required_inv in H1. destruct H1 as [ts [-> _]].
  apply skippable_required_inv in H3. destruct H3 as [es [-> Hes]].
  apply skippable_required_inv in H7. destruct H7 as [time [-> Htime]].
  apply then_hook_ok_inv in Htime. destruct Htime as [t0 [_ Htime]].
  apply validate_cooking_time_ok_inv in Htime. destruct Htime as [-> Hpos].
  rewrite Hauthor in H2. cbn in H2. injection H2 as <-.
  exists ts, es, t0. repeat split; assumption.
Qed.

End MoreRecipeProperties.

(** X9, at a creation: the tables after the crepes are created. *)
Lemma create_keeps_tables_well_formed_witness :
  db_wf (now (snd (RecipesSerializer_create (C := Demo.collaborators)
                     Demo.crepes_data (start Demo.db))))
  /\ tbl_recipes
       (now (snd (RecipesSerializer_create (C := Demo.collaborators)
                    Demo.crepes_data (start Demo.db))))
     = [Demo.pancakes; Demo.omelette; Demo.crepes].
Proof.
  destruct (create_keeps_tables_well_formed (C := Demo.collaborators)
              Demo.db Demo.crepes_data Demo.crepes
              (snd (RecipesSerializer_create (C := Demo.collaborators)
                      Demo.crepes_data (start Demo.db)))
              demo_db_wf) as [Hwf [_ [_ Hrecipes]]].
  - intros es [= <-]. forall_in.
  - reflexivity.
  - split; [exact Hwf | exact Hrecipes].
Defined.

(** X10, at an update: the tables after the lines of the pancakes are
    replaced. *)
Lemma update_keeps_tables_well_formed_witness :
  db_wf (now (snd (RecipesSerializer_update (C := Demo.collaborators)
                     Demo.pancakes Demo.new_lines_data (start Demo.db)))).
Proof.
  apply (update_keeps_tables_well_formed (C := Demo.collaborators)
           Demo.db Demo.pancakes Demo.new_lines_data demo_db_wf).
  - reflexivity.
  - intros es [= <-]. forall_in.
Defined.

(** X11, at an update: the new text of the pancakes is saved, the
    omelette stays. *)
Lemma update_saves_remaining_fields_witness :
  exists recipe',
    fst (RecipesSerializer_update (C := Demo.collaborators) Demo.pancakes
           Demo.retag_data (start Demo.db)) = Ok recipe'
    /\ recipe_text recipe' = "mix, rest and fry"
    /\ recipe_name recipe' = "pancakes"
    /\ In recipe'
         (tbl_recipes
            (now (snd (RecipesSerializer_update (C := Demo.collaborators)
                         Demo.pancakes Demo.retag_data (start Demo.db)))))
    /\ In Demo.omelette
         (tbl_recipes
            (now (snd (RecipesSerializer_update (C := Demo.collaborators)
                         Demo.pancakes Demo.retag_data (start Demo.db))))).
Proof.
  destruct (update_saves_remaining_fields (C := Demo.collaborators)
              Demo.db Demo.pancakes Demo.retag_data) as [Hok _].
  - intros es [=].
  - eexists. split; [reflexivity|].
    destruct (Hok _ eq_refl) as [_ [Hname [_ [Htext [_ [Hin Hother]]]]]].
    split; [exact Htext|]. split; [exact Hname|]. split; [exact Hin|].
    apply Hother; [discriminate|]. right. left. reflexivity.
Defined.

(** X12, at an update: the pancakes, tagged breakfast, are retagged
    dinner. *)
Lemma update_replaces_tags_witness :
  map (TagsSerializer)
      (tags_all
         (now (snd (RecipesSerializer_update (C := Demo.collaborators)
                      Demo.pancakes Demo.retag_data (start Demo.db))))
         Demo.pancakes)
  = [TagsSerializer Demo.dinner]
  /\ List.length
       (map TagsSerializer
          (tags_all
             (now (snd (RecipesSerializer_update (C := Demo.collaborators)
                          Demo.pancakes Demo.retag_data (start Demo.db))))
             Demo.pancakes))
     = List.length [Demo.dinner].
Proof.
  split; [reflexivity|].
  destruct (update_replaces_tags (C := Demo.collaborators) Demo.db
              Demo.pancakes Demo.retag_data [Demo.dinner]
              (wf_tag_ids Demo.db demo_db_wf)) as [_ [_ [Hlen _]]].
  - intros es [=].
  - reflexivity.
  - discriminate.
  - forall_in.
  - apply Hlen. repeat constructor. intros [].
Defined.

(* ================================================================== *)
(** * Field ranges of a submission *)
(* ================================================================== *)


Lemma collecting_proper {A} (b : binding A) : collecting b -> proper b.
Proof. destruct b; simpl; auto. contradiction. Qed.












Section FieldRanges.

Context `{C : Collaborators} `{F : RecipeFields}.









End FieldRanges.




(* ================================================================== *)
(** * The round trip of a created recipe *)
(* ================================================================== *)

(** What [TagsSerializer] shows of a tag, field by field. *)
Lemma shows_tag_iff (x : TagRep) (t : Tags) :
  shows_tag x t <-> x = TagsSerializer t.
Proof.
  unfold shows_tag, TagsSerializer. split.
  - destruct x. cbn. now intros [-> [-> [-> ->]]].
  - intros ->. cbn. repeat split.
Qed.

(** The tags table, filtered by the ids of [ts], has as many rows as
    [ts] has distinct ids. *)
Lemma tags_shown_count (tags_table : list Tags) (ts : list Tags) :
  NoDup (map tag_id tags_table) ->
  Forall (fun t => In t tags_table) ts ->
  List.length
    (filter (fun t => existsb (Z.eqb (tag_id t)) (map tag_id ts)) tags_table)
  = List.length (nodup Z.eq_dec (map tag_id ts)).
Proof.
  intros Hnd Hall.
  rewrite <- (length_map tag_id (filter _ tags_table)).
  apply Permutation_length. apply NoDup_Permutation.
  - now apply NoDup_map_filter.
  - apply NoDup_nodup.
  - intro id. rewrite nodup_In, !in_map_iff. split.
    + intros [t [<- Ht]]. apply filter_In in Ht. destruct Ht as [_ Hid].
      apply existsb_exists in Hid. destruct Hid as [id' [Hin Heq]].
      apply Z.eqb_eq in Heq. apply in_map_iff in Hin. now rewrite Heq.
    + intros [t [<- Ht]]. exists t. split; [reflexivity|].
      apply filter_In. split.
      * rewrite Forall_forall in Hall. now apply Hall.
      * apply existsb_exists. exists (tag_id t).
        split; [now apply in_map | apply Z.eqb_refl].
Qed.

Section RoundTrip.

Context `{C : Collaborators}.

(** C4 (as amended). Round trip.  A recipe that [create] returns for N
    ingredient entries and a list of tags is stored: the recipes table
    is the old one followed by the returned row, and that row is the only
    one with its id when the id is fresh.  Reading it back from the
    tables [create] leaves yields an ingredients list of exactly N
    entries, in the order given, each showing the id, amount, name and
    measurement unit of its entry, and a tags list that shows every
    assigned tag by its id, name, color and slug, each once: M entries
    for M distinct tags, one entry for a tag named more than once.  The
    ingredients shown are the projection of the lines the recipe owns in
    the table. *)
Theorem create_then_read_round_trip (db : DB) (request : Request)
  (validated_data : RecipeData) (es : list IngredientEntry) (ts : list Tags)
  (author : User) (image : ContentFile) (recipe : Recipes) (st : Store) :
  db_wf db ->
  vd_ingredients validated_data = Some es ->
  vd_tags validated_data = Some ts ->
  vd_author validated_data = Some (CurrentUser (Authenticated author)) ->
  In author (tbl_users db) ->
  vd_image validated_data = Some image ->
  storage_save image <> "" ->
  Forall (fun e => In (entry_id e) (tbl_ingredients db)) es ->
  Forall (fun t => In t (tbl_tags db)) ts ->
  RecipesSerializer_create validated_data (start db) = (Ok recipe, st) ->
  tbl_recipes (now st) = tbl_recipes db ++ [recipe]
  /\ ((forall r, In r (tbl_recipes db) -> recipe_id r < seq_recipe db) ->
      forall instance,
        In instance (tbl_recipes (now st)) ->
        recipe_id instance = recipe_id recipe ->
        instance = recipe)
  /\ exists rep,
       RecipesSerializer_to_representation (now st) request recipe = Ok rep
       /\ rep_ingredients rep = map entry_rep es
       /\ List.length (rep_ingredients rep) = List.length es
       /\ (forall x, In x (rep_tags rep)
                     <-> exists t, In t ts /\ shows_tag x t)
       /\ NoDup (rep_tags rep)
       /\ List.length (rep_tags rep)
          = List.length (nodup Z.eq_dec (map tag_id ts))
       /\ (NoDup ts -> List.length (rep_tags rep) = List.length ts)
       /\ recipes_ingredients_all (now st) recipe
          = numbered_lines (recipe_id recipe) (seq_line db) es
       /\ map_outcome (IngredientsRecipeSerializer (now st))
                      (recipes_ingredients_all (now st) recipe)
          = Ok (rep_ingredients rep).
Proof.
  intros Hwf Hes Hts Hauthor Hstored Himage Hpath Hall Htall Hrun.
  destruct (create_now db validated_data recipe st) as
    [es' [ts' [author' [time [Hes' [Hts' [Hauthor' [Htime
      [Hid [Hrauthor [Hrtime Hnow]]]]]]]]]]]; [|exact Hrun|].
  { intros es0 Hes0. rewrite Hes in Hes0. now injection Hes0 as <-. }
  rewrite Hes in Hes'. injection Hes' as <-.
  rewrite Hts in Hts'. injection Hts' as <-.
  rewrite Hauthor in Hauthor'. injection Hauthor' as <-.
  assert (Himg : recipe_image recipe = storage_save image).
  { unfold RecipesSerializer_create in Hrun. rewrite Hes, Hts in Hrun.
    unfold Recipes_objects_create in Hrun.
    rewrite Hauthor, Htime, Himage in Hrun.
    unfold tags_set, bind, query, write, ret in Hrun.
    cbn [now committed start recipe_id] in Hrun.
    match type of Hrun with context [add_ingredients ?r es ?s] =>
      destruct (add_ingredients_run r es s Hall) as [log Hadd] end.
    rewrite Hadd in Hrun. now injection Hrun as <- _. }
  assert (Hlines : tbl_lines (now st)
                   = tbl_lines db
                     ++ numbered_lines (seq_recipe db) (seq_line db) es).
  { now rewrite Hnow. }
  assert (Hrows : tbl_recipe_tags (now st)
                  = rows_after_set (seq_recipe db) (map tag_id ts)
                                   (tbl_recipe_tags db)).
  { now rewrite Hnow. }
  assert (Hing : tbl_ingredients (now st) = tbl_ingredients db).
  { now rewrite Hnow. }
  assert (Htags : tbl_tags (now st) = tbl_tags db).
  { now rewrite Hnow. }
  assert (Husers : tbl_users (now st) = tbl_users db).
  { now rewrite Hnow. }
  assert (Hrecipes : tbl_recipes (now st) = tbl_recipes db ++ [recipe]).
  { now rewrite Hnow. }
  assert (Hown : recipes_ingredients_all (now st) recipe
                 = numbered_lines (recipe_id recipe) (seq_line db) es).
  { unfold recipes_ingredients_all. rewrite Hlines, filter_app, Hid.
    rewrite filter_none, filter_all; [reflexivity | |].
    - intros l Hl. apply numbered_lines_recipe in Hl. apply Z.eqb_eq.
      apply Hl.
    - intros l Hl. apply Z.eqb_neq.
      pose proof (wf_line_recipe db Hwf l Hl). lia. }
  assert (Hread : map_outcome (IngredientsRecipeSerializer (now st))
                    (recipes_ingredients_all (now st) recipe)
                  = Ok (map entry_rep es)).
  { rewrite Hown. apply read_numbered_lines.
    - rewrite Hing. apply (wf_ingredient_ids db Hwf).
    - now rewrite Hing. }
  assert (Htagsall : tags_all (now st) recipe
                     = filter (fun t => existsb (Z.eqb (tag_id t))
                                                (map tag_id ts))
                              (tbl_tags db)).
  { unfold tags_all. rewrite Htags, Hrows, Hid. apply filter_ext. intro t.
    apply rows_after_set_spec. }
  destruct (find_present (fun u => user_id u =? recipe_author recipe)
              (tbl_users (now st)) author) as [u [Hu _]].
  { now rewrite Husers. }
  { rewrite Hrauthor. apply Z.eqb_refl. }
  destruct (read_tags_after_set (tbl_tags db) ts (wf_tag_ids db Hwf) Htall)
    as [Hsame [Hnd Hlen]].
  split; [exact Hrecipes|]. split.
  - intros Hfresh instance Hin Hsameid. rewrite Hrecipes in Hin.
    apply in_app_or in Hin. destruct Hin as [Hin | [<- | []]];
      [|reflexivity].
    pose proof (Hfresh instance Hin). lia.
  - eexists. split.
    + unfold RecipesSerializer_to_representation. rewrite Hu.
      assert (Py.truthy_str (recipe_image recipe) = true) as ->.
      { rewrite Himg. now apply truthy_str_iff. }
      rewrite Hread. reflexivity.
    + cbn [rep_ingredients rep_tags]. rewrite Htagsall.
      split; [reflexivity|]. split; [apply length_map|].
      split.
      { intro x. rewrite Hsame, in_map_iff. split.
        - intros [t [<- Ht]]. exists t. split; [assumption|].
          now apply shows_tag_iff.
        - intros [t [Ht Hx]]. exists t. apply shows_tag_iff in Hx.
          now split. }
      split; [exact Hnd|].
      split.
      { rewrite length_map.
        now apply tags_shown_count; [apply (wf_tag_ids db Hwf)|]. }
      split; [exact Hlen|].
      split; [exact Hown | exact Hread].
Qed.

End RoundTrip.

(** C4 (as amended), at a creation: crepes with milk and flour, tagged
    dinner and breakfast, read back by bob. *)
Lemma create_then_read_round_trip_witness :
  In Demo.crepes
     (tbl_recipes
        (now (snd (RecipesSerializer_create (C := Demo.collaborators)
                     Demo.crepes_data (start Demo.db)))))
  /\ exists rep,
       RecipesSerializer_to_representation (C := Demo.collaborators)
         (now (snd (RecipesSerializer_create (C := Demo.collaborators)
                      Demo.crepes_data (start Demo.db))))
         Demo.as_bob Demo.crepes
       = Ok rep
       /\ rep_ingredients rep
          = [{| lr_id := "2"; lr_amount := 500; lr_name := "milk";
                lr_measurement_unit := "ml" |};
             {| lr_id := "1"; lr_amount := 250; lr_name := "flour";
                lr_measurement_unit := "g" |}]
       /\ List.length (rep_tags rep) = 2%nat
       /\ (forall x, In x (rep_tags rep)
                     <-> exists t, In t [Demo.dinner; Demo.breakfast]
                                   /\ shows_tag x t).
Proof.
  destruct (create_then_read_round_trip (C := Demo.collaborators) Demo.db
              Demo.as_bob Demo.crepes_data
              [{| entry_id := Demo.milk; entry_amount := 500 |};
               {| entry_id := Demo.flour; entry_amount := 250 |}]
              [Demo.dinner; Demo.breakfast] Demo.alice Demo.pixel_file
              Demo.crepes
              (snd (RecipesSerializer_create (C := Demo.collaborators)
                      Demo.crepes_data (start Demo.db)))
              demo_db_wf eq_refl eq_refl eq_refl)
    as [Hstored [_ [rep [Hread [Hing [_ [Htags [_ [_ [Hlen _]]]]]]]]]].
  - left. reflexivity.
  - reflexivity.
  - discriminate.
  - forall_in.
  - forall_in.
  - reflexivity.
  - split.
    + rewrite Hstored. apply in_or_app. right. now left.
    + exists rep. split; [exact Hread|]. split; [exact Hing|].
      split; [|exact Htags].
      apply Hlen. repeat constructor; cbn; intuition discriminate.
Defined.

(** C4, the claim as stated fails: a recipe created with a tags list of
    two entries, the tag dinner named twice, reads back with a tags list
    of one entry.  The many-to-many relation holds a tag once. *)
Lemma duplicate_tag_reads_back_once :
  vd_tags Demo.twice_tagged_data = Some [Demo.dinner; Demo.dinner]
  /\ fst (RecipesSerializer_create (C := Demo.collaborators)
            Demo.twice_tagged_data (start Demo.db))
     = Ok Demo.crepes
  /\ exists rep,
       RecipesSerializer_to_representation (C := Demo.collaborators)
         (now (snd (RecipesSerializer_create (C := Demo.collaborators)
                      Demo.twice_tagged_data (start Demo.db))))
         Demo.as_bob Demo.crepes
       = Ok rep
       /\ rep_tags rep
          = [{| tr_id := 2; tr_name := "dinner"; tr_color := "#8775D2";
                tr_slug := "dinner" |}]
       /\ List.length (rep_tags rep) = 1%nat.
Proof.
  split; [reflexivity|]. split; [reflexivity|].
  eexists. split; [vm_compute; reflexivity|]. split; reflexivity.
Qed.

(* ================================================================== *)
(** * From an accepted payload to the rows of the tables *)
(* ================================================================== *)

Section AcceptedPayload.

Context `{C : Collaborators} `{F : RecipeFields}.

(** X8. Validation and creation compose.  A payload that
    [to_internal_value] accepts in full (not partial), that names no
    author and comes from an authenticated user, binds its tags, the
    requesting user as the author, one entry per submitted ingredient
    item, each of a stored ingredient and with a positive amount, and a
    positive cooking time.  Whenever [create] then returns a recipe for
    it, the recipe has the next id, that author and that cooking time,
    and the lines appended for it are one per entry, each with a positive
    amount. *)
Theorem accepted_payload_creates_valid_rows (uuid4 : string) (db : DB)
  (request : Request) (data : dict jval) (validated_data : RecipeData)
  (author : User) :
  RecipesSerializer_to_internal_value uuid4 db request false data
  = Ok validated_data ->
  dict_get "author" data = None ->
  request_user request = Authenticated author ->
  exists ts es items time,
    vd_tags validated_data = Some ts
    /\ vd_author validated_data = Some (CurrentUser (Authenticated author))
    /\ vd_ingredients validated_data = Some es
    /\ dict_get "ingredients" data = Some (JList items)
    /\ List.length es = List.length items
    /\ Forall (fun e => In (entry_id e) (tbl_ingredients db)
                        /\ 0 < entry_amount e) es
    /\ vd_cooking_time validated_data = Some time
    /\ 0 < time
    /\ forall recipe st,
         RecipesSerializer_create validated_data (start db)
         = (Ok recipe, st) ->
         recipe_id recipe = seq_recipe db
         /\ recipe_author recipe = user_id author
         /\ recipe_cooking_time recipe = time
         /\ tbl_lines (now st)
            = tbl_lines db
              ++ numbered_lines (seq_recipe db) (seq_line db) es
         /\ List.length (numbered_lines (seq_recipe db) (seq_line db) es)
            = List.length items
         /\ Forall (fun l => 0 < line_amount l)
                   (numbered_lines (seq_recipe db) (seq_line db) es).
Proof.
  intros Hbound Hauthor Huser.
  assert (Hsuper : exists data',
             super_to_internal_value db request false data'
             = Ok validated_data
             /\ dict_get "author" data' = None
             /\ dict_get "ingredients" data' = dict_get "ingredients" data).
  { unfold RecipesSerializer_to_internal_value in Hbound.
    destruct (negb (truthy (dict_get "image" data))); [now exists data|].
    destruct (dict_get "image" data) as [[| | | s | | |]|]; try discriminate.
    destruct (b64decode _); [|discriminate].
    destruct (Image_open_format _); [|discriminate].
    eexists. split; [exact Hbound|].
    rewrite !dict_get_set_other by discriminate. now split. }
  destruct Hsuper as [data' [Hsuper [Hauthor' Hing']]].
  destruct (super_bound_complete db request data' validated_data
              Hsuper Hauthor')
    as [ts [es [time [Hts [Hau [Hes [Hlist [Htime Hpos]]]]]]]].
  rewrite Huser in Hau. rewrite Hing' in Hlist.
  apply validated_list_sound in Hlist.
  destruct Hlist as [items [Hitems [Hlen Hall]]].
  exists ts, es, items, time.
  repeat (split; [assumption|]).
  intros recipe st Hrun.
  destruct (create_now db validated_data recipe st) as
    [es' [ts' [author' [time' [Hes' [Hts' [Hauthor'' [Htime'
      [Hid [Hrauthor [Hrtime Hnow]]]]]]]]]]]; [|exact Hrun|].
  { intros es0 Hes0. rewrite Hes in Hes0. injection Hes0 as <-.
    eapply Forall_impl; [|exact Hall]. now intros e [He _]. }
  rewrite Hes in Hes'. injection Hes' as <-.
  rewrite Hau in Hauthor''. injection Hauthor'' as <-.
  rewrite Htime in Htime'. injection Htime' as <-.
  split; [exact Hid|]. split; [exact Hrauthor|]. split; [exact Hrtime|].
  split; [now rewrite Hnow|].
  split.
  { rewrite <- (length_map line_amount), numbered_lines_amounts,
      length_map. exact Hlen. }
  apply Forall_forall. intros l Hl.
  assert (Hin : In (line_amount l)
                   (map line_amount
                      (numbered_lines (seq_recipe db) (seq_line db) es))).
  { now apply in_map. }
  rewrite numbered_lines_amounts in Hin. apply in_map_iff in Hin.
  destruct Hin as [e [<- He]]. rewrite Forall_forall in Hall.
  now apply Hall.
Qed.

End AcceptedPayload.

(** X8, at a payload: the crepes as alice submits them. *)
Lemma accepted_payload_creates_valid_rows_witness :
  exists ts es items time,
    vd_tags Demo.crepes_data = Some ts
    /\ vd_author Demo.crepes_data
       = Some (CurrentUser (Authenticated Demo.alice))
    /\ vd_ingredients Demo.crepes_data = Some es
    /\ dict_get "ingredients" Demo.crepes_payload = Some (JList items)
    /\ List.length es = List.length items
    /\ Forall (fun e => In (entry_id e) (tbl_ingredients Demo.db)
                        /\ 0 < entry_amount e) es
    /\ vd_cooking_time Demo.crepes_data = Some time
    /\ 0 < time.
Proof.
  destruct (accepted_payload_creates_valid_rows (C := Demo.collaborators)
              (F := Demo.fields) Demo.drawn_uuid Demo.db Demo.as_alice
              Demo.crepes_payload Demo.crepes_data Demo.alice)
    as [ts [es [items [time [H1 [H2 [H3 [H4 [H5 [H6 [H7 [H8 _]]]]]]]]]]]].
  - vm_compute. reflexivity.
  - reflexivity.
  - reflexivity.
  - exists ts, es, items, time. repeat split; assumption.
Defined.
